(** * Property listing service: filter, sort, compose and lifecycle

    A shallow embedding of the property service of the real-estate API
    (api/services/propertyService.js, api/helper/propertyBuilder.js,
    api/services/propertyImageService.js, api/controllers/propertyController.js)
    and of the part of the Sequelize model API these files call.

    JavaScript values are dynamically typed, so rows, request bodies and
    where-objects are finite maps from names to [JsVal].  A thrown
    exception (a rejected promise) is the [Throw] case of [Result].

    Modelling boundary.  Numbers are integers (a DECIMAL(10,2) price counts
    hundredths).  Whether the model validators of api/models/property.js and
    the database engine accept a write is a parameter of the development
    (the [accepts] field of the store); a table that cannot be reached is a state of the store
    ([Property_outage], [PropertyImage_outage]).  A where value of
    [undefined] matches no row; strings compare exactly. *)

From stdpp Require Import gmap strings list fin_maps sorting.
From Stdlib Require Import ZArith DecimalString.

Open Scope Z_scope.

(** ** JavaScript values *)

#[warnings="-register-all"]
Inductive JsVal : Type :=
  | JUndefined
  | JNull
  | JBool (b : bool)
  | JNum (n : Z)
  | JStr (s : string)
  | JDate (ms : Z)
  | JArr (items : list JsVal).

(** A plain object: a row's [dataValues], a request body, a values object. *)
Abbreviation Row := (gmap string JsVal).

(** [o.k]: reading a missing property gives [undefined]. *)
Definition get (o : Row) (k : string) : JsVal := default JUndefined (o !! k).

(** An object literal [{ k1: v1, ..., kn: vn }]. *)
Definition obj (l : list (string * JsVal)) : Row := list_to_map l.

Definition is_undefined (v : JsVal) : bool :=
  match v with JUndefined => true | _ => false end.

(** [v !== null] is [negb (is_null v)]. *)
Definition is_null (v : JsVal) : bool :=
  match v with JNull => true | _ => false end.

(** A default parameter [p = d] replaces [undefined] only. *)
Definition default_param (d v : JsVal) : JsVal :=
  match v with JUndefined => d | _ => v end.

(** Truthiness, the test of [if (v)]. *)
Definition truthy (v : JsVal) : bool :=
  match v with
  | JUndefined | JNull => false
  | JBool b => b
  | JNum n => negb (n =? 0)
  | JStr s => negb (String.eqb s "")
  | JDate _ | JArr _ => true
  end.

(** [v === 'lit'] for a string literal. *)
Definition is_str (v : JsVal) (lit : string) : bool :=
  match v with JStr s => String.eqb s lit | _ => false end.

(** ** Exceptions *)

Record JsError : Type := Error { message : string }.

Inductive Result (A : Type) : Type :=
  | Ok (a : A)
  | Throw (e : JsError).
Arguments Ok {A} a.
Arguments Throw {A} e.

Definition bind {A B} (m : Result A) (f : A → Result B) : Result B :=
  match m with Ok a => f a | Throw e => Throw e end.

(** [try { body } catch (error) { handler error }] *)
Definition try_catch {A} (body : Result A) (handler : JsError → Result A) : Result A :=
  match body with Ok a => Ok a | Throw e => handler e end.

(** [Promise.all(xs.map(f))]: the results in the order of [xs], or the
    first rejection. *)
Fixpoint promise_all {A B} (f : A → Result B) (xs : list A) : Result (list B) :=
  match xs with
  | [] => Ok []
  | x :: rest =>
      bind (f x) (λ y, bind (promise_all f rest) (λ ys, Ok (y :: ys)))
  end.

(** ** The Sequelize model API, over an in-memory table *)

Module Sequelize.

(** A decimal literal as a number; path parameters arrive as strings. *)
Definition Z_of_string (s : string) : option Z :=
  Z.of_int <$> NilEmpty.int_of_string s.

Definition sql_number (v : JsVal) : option Z :=
  match v with
  | JNum n => Some n
  | JStr s => Z_of_string s
  | _ => None
  end.

(** [column = v] for a non-null [v]; NULL equals nothing. *)
Definition sql_eq (x v : JsVal) : bool :=
  match x, v with
  | JBool a, JBool b => Bool.eqb a b
  | JStr s, JStr t => String.eqb s t
  | JDate a, JDate b => a =? b
  | _, _ =>
      match sql_number x, sql_number v with
      | Some a, Some b => a =? b
      | _, _ => false
      end
  end.

(** [x <= y] on numbers and on dates; NULL compares with nothing. *)
Definition sql_le (x y : JsVal) : bool :=
  match x, y with
  | JDate a, JDate b => a <=? b
  | _, _ =>
      match sql_number x, sql_number y with
      | Some a, Some b => a <=? b
      | _, _ => false
      end
  end.

Definition sql_is_null (x : JsVal) : bool :=
  match x with JUndefined | JNull => true | _ => false end.

(** An operator object [{ [Op.ne]: a, [Op.gte]: b, [Op.lte]: c }], each
    key optional; [{}] is [no_ops]. *)
Record Operators : Type := mkOps {
  op_ne : option JsVal;
  op_gte : option JsVal;
  op_lte : option JsVal }.

Definition no_ops : Operators := mkOps None None None.

(** The value under a column of a where-object. *)
Inductive Cond : Type :=
  | Plain (v : JsVal)
  | Ops (o : Operators).

Abbreviation Where := (gmap string Cond).

Definition check {A} (test : A → bool) (o : option A) : bool :=
  match o with Some a => test a | None => true end.

Definition holds (c : Cond) (x : JsVal) : bool :=
  match c with
  | Plain JNull => sql_is_null x
  | Plain v => sql_eq x v
  | Ops o =>
      check (λ v, negb (sql_is_null x) && negb (sql_eq x v)) (op_ne o)
      && check (λ v, sql_le v x) (op_gte o)
      && check (λ v, sql_le x v) (op_lte o)
  end.

(** The row satisfies every entry of the where-object. *)
Definition Matches (w : Where) (r : Row) : Prop :=
  map_Forall (λ col c, holds c (get r col) = true) w.

#[export] Instance Matches_dec w r : Decision (Matches w r).
Proof. unfold Matches. apply _. Defined.

Inductive Direction : Type := ASC | DESC.

(** ORDER BY key: NULL first, then numbers (booleans are 0 and 1), then
    dates; strings are not ordered among themselves (no string column
    is ever a sort key here). *)
Definition order_key (v : JsVal) : Z * Z :=
  match v with
  | JUndefined | JNull => (0, 0)
  | JBool b => (1, if b then 1 else 0)
  | JNum n => (1, n)
  | JDate ms => (2, ms)
  | JStr _ => (3, 0)
  | JArr _ => (4, 0)
  end.

Definition key_lt (a b : Z * Z) : Prop :=
  a.1 < b.1 ∨ (a.1 = b.1 ∧ a.2 < b.2).

Definition col_key (col : string) (r : Row) : Z * Z := order_key (get r col).

(** [r1] comes strictly before [r2] under one ORDER BY term. *)
Definition term_lt (t : string * Direction) (r1 r2 : Row) : Prop :=
  match t.2 with
  | ASC => key_lt (col_key t.1 r1) (col_key t.1 r2)
  | DESC => key_lt (col_key t.1 r2) (col_key t.1 r1)
  end.

Definition term_tie (t : string * Direction) (r1 r2 : Row) : Prop :=
  col_key t.1 r1 = col_key t.1 r2.

(** Lexicographic order of an [order] array. *)
Fixpoint order_le (order : list (string * Direction)) (r1 r2 : Row) : Prop :=
  match order with
  | [] => True
  | t :: rest => term_lt t r1 r2 ∨ (term_tie t r1 r2 ∧ order_le rest r1 r2)
  end.

#[export] Instance key_lt_dec a b : Decision (key_lt a b).
Proof. unfold key_lt. apply _. Defined.

#[export] Instance term_lt_dec t r1 r2 : Decision (term_lt t r1 r2).
Proof. unfold term_lt. destruct (t.2); apply _. Defined.

#[export] Instance term_tie_dec t r1 r2 : Decision (term_tie t r1 r2).
Proof. unfold term_tie. apply _. Defined.

#[export] Instance order_le_dec order r1 r2 : Decision (order_le order r1 r2).
Proof. induction order as [|t rest IH]; simpl; apply _. Defined.

(** An empty [order] array leaves the rows as the table yields them. *)
Definition order_by (order : list (string * Direction)) (rows : list Row) : list Row :=
  match order with
  | [] => rows
  | _ => merge_sort (order_le order) rows
  end.

(** The rows of a table in the store's natural order. *)
Definition table_rows (t : gmap Z Row) : list Row := (map_to_list t).*2.

(** [Model.findAll({ where, order })] *)
Definition findAll (outage : option JsError) (t : gmap Z Row)
    (w : Where) (order : list (string * Direction)) : Result (list Row) :=
  match outage with
  | Some e => Throw e
  | None => Ok (order_by order (filter (Matches w) (table_rows t)))
  end.

(** [Model.findOne({ where })]: the first match or [null]. *)
Definition findOne (outage : option JsError) (t : gmap Z Row) (w : Where)
    : Result (option Row) :=
  bind (findAll outage t w []) (λ rows, Ok (head rows)).

Definition as_key (pk : JsVal) : option Z := sql_number pk.

(** [Model.findByPk(pk)]: the row under the key or [null]. *)
Definition findByPk (outage : option JsError) (t : gmap Z Row) (pk : JsVal)
    : Result (option Row) :=
  match outage with
  | Some e => Throw e
  | None => Ok (as_key pk ≫= λ k, t !! k)
  end.

(** The keys of a values object that carry a value: [update] and
    [create] ignore [undefined]. *)
Definition defined (values : Row) : Row :=
  filter (λ kv, is_undefined kv.2 = false) values.

End Sequelize.
Export Sequelize.

(** ** The store *)

(** The two tables the property service reads and writes, keyed by their
    primary keys, the AUTO_INCREMENT counter of [Properties], and, per
    model, the error every call raises while its table is unreachable. *)
Record Db : Type := mkDb {
  Properties : gmap Z Row;
  PropertyImages : gmap Z Row;
  next_property_id : Z;
  Property_outage : option JsError;
  PropertyImage_outage : option JsError;
  (** whether the model validators and the database accept a write: the
      row as it was ([None] for an INSERT) and the fields written *)
  accepts : option Row → Row → bool;
  (** the error raised when they do not *)
  rejection : option Row → Row → JsError }.

(** The same store with other contents. *)
Definition with_tables (db : Db) (props imgs : gmap Z Row) (next : Z) : Db :=
  mkDb props imgs next (Property_outage db) (PropertyImage_outage db)
       (accepts db) (rejection db).

Definition with_Properties (db : Db) (t : gmap Z Row) : Db :=
  with_tables db t (PropertyImages db) (next_property_id db).

(** Column defaults of api/models/property.js ([created_at] defaults to NOW). *)
Definition Property_defaults (now : Z) : Row :=
  obj [("living_rooms", JNum 1); ("balconies", JNum 0);
       ("parking_spaces", JNum 0); ("furnished", JBool false);
       ("isForRent", JBool false); ("isApproved", JBool false);
       ("created_at", JDate now)].

Definition Property_columns : list string :=
  ["property_id"; "user_id"; "name"; "description"; "city"; "price";
   "property_type"; "square_meter"; "bedrooms"; "bathrooms"; "living_rooms";
   "balconies"; "parking_spaces"; "furnished"; "year_built"; "isForRent";
   "isApproved"; "created_at"].

Definition null_row (columns : list string) : Row :=
  list_to_map ((λ c, (c, JNull)) <$> columns).

(** PropertyImage.belongsTo(Property, { onDelete: 'CASCADE' }) *)
Definition references (pk : Z) (img : Row) : Prop :=
  sql_number (get img "property_id") = Some pk.

#[export] Instance references_dec pk img : Decision (references pk img).
Proof. unfold references. apply _. Defined.

Definition Property_findAll (db : Db) := findAll (Property_outage db) (Properties db).
Definition Property_findOne (db : Db) := findOne (Property_outage db) (Properties db).
Definition Property_findByPk (db : Db) := findByPk (Property_outage db) (Properties db).
Definition PropertyImage_findAll (db : Db) :=
  findAll (PropertyImage_outage db) (PropertyImages db).

(** [Property.create(values)]: defaults fill what is [undefined], the key
    comes from the counter. *)
Definition Property_create (db : Db) (now : Z) (values : Row) : Result Row * Db :=
  match Property_outage db with
  | Some e => (Throw e, db)
  | None =>
      let id := next_property_id db in
      let row := <["property_id" := JNum id]>
                   (defined values ∪ Property_defaults now ∪ null_row Property_columns) in
      if accepts db None row
      then (Ok row, with_tables db (<[id := row]> (Properties db)) (PropertyImages db) (id + 1))
      else (Throw (rejection db None row), db)
  end.

(** Writing [fields] of the instance [inst] back under its key. *)
Definition write_back (db : Db) (inst : Row) (fields : Row) : Result Row * Db :=
  match Property_outage db with
  | Some e => (Throw e, db)
  | None =>
      if accepts db (Some inst) fields
      then let inst' := fields ∪ inst in
           (Ok inst',
            match as_key (get inst "property_id") with
            | Some k => with_Properties db (<[k := inst']> (Properties db))
            | None => db
            end)
      else (Throw (rejection db (Some inst) fields), db)
  end.

(** [instance.update(values)]: only the values that are not [undefined]. *)
Definition instance_update (db : Db) (inst : Row) (values : Row) : Result Row * Db :=
  write_back db inst (defined values).

(** [instance.k = v; await instance.save()] *)
Definition instance_set_save (db : Db) (inst : Row) (k : string) (v : JsVal)
    : Result Row * Db :=
  write_back db inst {[ k := v ]}.

(** [instance.destroy()], with the cascade onto the images. *)
Definition instance_destroy (db : Db) (inst : Row) : Result unit * Db :=
  match Property_outage db with
  | Some e => (Throw e, db)
  | None =>
      match as_key (get inst "property_id") with
      | Some k =>
          (Ok (),
           with_tables db (delete k (Properties db))
                       (filter (λ kv, ¬ references k kv.2) (PropertyImages db))
                       (next_property_id db))
      | None => (Ok (), db)
      end
  end.

(** ** api/services/propertyImageService.js *)

Definition getImagesByProperty (db : Db) (propertyId : JsVal) : Result (list Row) :=
  try_catch
    (PropertyImage_findAll db {[ "property_id" := Plain propertyId ]}
                           [("image_id", ASC)])
    (λ error, Throw (Error ("Failed to retrieve images: " +:+ message error))).

(** ** api/helper/propertyBuilder.js *)

(** The composer on the model instances [findAll] returns, each given by
    its row, which is what its [toJSON()] yields. *)
Definition attachImagesToProperties (db : Db) (properties : list Row)
    : Result (list Row) :=
  promise_all
    (λ property,
       bind (getImagesByProperty db (get property "property_id")) (λ images,
       Ok (<["images" := JArr ((λ img, get img "image_url") <$> images)]> property)))
    properties.

(** ** api/services/propertyService.js *)

Definition buildOrder (sortBy : JsVal) : list (string * Direction) :=
  if is_str sortBy "price_asc" then [("price", ASC)]
  else if is_str sortBy "price_desc" then [("price", DESC)]
  else if is_str sortBy "date_asc" then [("created_at", ASC)]
  else if is_str sortBy "date_desc" then [("created_at", DESC)]
  else if is_str sortBy "year_asc" then [("year_built", ASC)]
  else if is_str sortBy "year_desc" then [("year_built", DESC)]
  else [].

Definition createProperty (db : Db) (now : Z)
    (name description city price property_type bedrooms bathrooms living_rooms
     balconies parking_spaces square_meter user_id isForRent furnished
     year_built : JsVal) : Result Row * Db :=
  match Property_findOne db (<["name" := Plain name]> {[ "user_id" := Plain user_id ]}) with
  | Throw e => (Throw e, db)
  | Ok (Some existingProperty) =>
      (Throw (Error "Property with this name already exists for this user"), db)
  | Ok None =>
      Property_create db now
        (obj [("user_id", user_id); ("name", name); ("description", description);
              ("city", city); ("price", price); ("property_type", property_type);
              ("bedrooms", bedrooms); ("bathrooms", bathrooms);
              ("living_rooms", living_rooms); ("balconies", balconies);
              ("parking_spaces", parking_spaces); ("square_meter", square_meter);
              ("isForRent", isForRent); ("furnished", furnished);
              ("year_built", year_built); ("isApproved", JBool false);
              ("created_at", JDate now)])
  end.

Definition updateProperty (db : Db)
    (property_id name description city price property_type bedrooms bathrooms
     living_rooms balconies parking_spaces furnished year_built : JsVal)
    : Result Row * Db :=
  match Property_findByPk db property_id with
  | Throw e => (Throw e, db)
  | Ok None => (Throw (Error "Property not found"), db)
  | Ok (Some property) =>
      instance_update db property
        (obj [("name", name); ("description", description); ("city", city);
              ("price", price); ("property_type", property_type);
              ("bedrooms", bedrooms); ("bathrooms", bathrooms);
              ("living_rooms", living_rooms); ("balconies", balconies);
              ("parking_spaces", parking_spaces); ("furnished", furnished);
              ("year_built", year_built)])
  end.

Definition deleteProperty (db : Db) (property_id : JsVal) : Result unit * Db :=
  match Property_findByPk db property_id with
  | Throw e => (Throw e, db)
  | Ok None => (Throw (Error "Property not found"), db)
  | Ok (Some property) => instance_destroy db property
  end.

Definition getPropertyById (db : Db) (property_id : JsVal) : Result Row :=
  bind (Property_findByPk db property_id) (λ property,
  match property with
  | None => Throw (Error "Property not found")
  | Some property => Ok property
  end).

Definition getApprovedProperties (db : Db) : Result (list Row) :=
  Property_findAll db {[ "isApproved" := Plain (JBool true) ]} [("created_at", DESC)].

Definition getNonApprovedProperties (db : Db) : Result (list Row) :=
  try_catch
    (bind (Property_findAll db {[ "isApproved" := Plain (JBool false) ]}
                            [("created_at", DESC)])
          (attachImagesToProperties db))
    (λ error, Throw (Error "Error fetching non-approved properties")).

Definition getPropertiesByType (db : Db) (propertyType : JsVal) : Result (list Row) :=
  Property_findAll db {[ "property_type" := Plain propertyType ]} [("created_at", DESC)].

Definition getPropertiesByLocation (db : Db) (propertyType city : JsVal)
    : Result (list Row) :=
  try_catch
    (Property_findAll db
       (<["property_type" := Plain propertyType]> {[ "city" := Plain city ]})
       [("created_at", DESC)])
    (λ error, Throw (Error "Error fetching properties by location")).

Definition getPropertiesByUserId (db : Db) (user_id : JsVal) : Result (list Row) :=
  try_catch
    (bind (Property_findAll db {[ "user_id" := Plain user_id ]} [("created_at", DESC)])
          (attachImagesToProperties db))
    (λ error, Throw (Error "Error fetching properties by user ID")).

Definition approveProperty (db : Db) (property_id : JsVal) : Result Row * Db :=
  match Property_findByPk db property_id with
  | Throw e => (Throw e, db)
  | Ok None => (Throw (Error "Property not found"), db)
  | Ok (Some property) => instance_set_save db property "isApproved" (JBool true)
  end.

(** [if (test) whereCondition[col] = c] *)
Definition assign_if (test : bool) (col : string) (c : Cond) (w : Where) : Where :=
  if test then <[col := c]> w else w.

(** [{ ...whereCondition[col] }]: the operator object under [col], [{}] when
    there is none. *)
Definition spread_ops (w : Where) (col : string) : Operators :=
  match w !! col with Some (Ops o) => o | _ => no_ops end.

Definition set_gte (v : JsVal) (o : Operators) : Operators :=
  mkOps (op_ne o) (Some v) (op_lte o).
Definition set_lte (v : JsVal) (o : Operators) : Operators :=
  mkOps (op_ne o) (op_gte o) (Some v).

(** The where-object [getPropertiesDynamic] builds, statement by statement. *)
Definition whereCondition
    (isRent city propertyType minPrice maxPrice minYear maxYear furnished
     userId : JsVal) : Where :=
  let w : Where := {[ "isApproved" := Plain (JBool true) ]} in
  let w := assign_if (negb (is_null isRent)) "isForRent" (Plain isRent) w in
  let w := assign_if (truthy city) "city" (Plain city) w in
  let w := assign_if (truthy propertyType) "property_type" (Plain propertyType) w in
  let w := assign_if (negb (is_null furnished)) "furnished" (Plain furnished) w in
  let w := assign_if (negb (is_null userId)) "user_id"
                     (Ops (mkOps (Some userId) None None)) w in
  let w :=
    if negb (is_null minYear) || negb (is_null maxYear) then
      let y := no_ops in
      let y := if negb (is_null minYear) then set_gte minYear y else y in
      let y := if negb (is_null maxYear) then set_lte maxYear y else y in
      <["year_built" := Ops y]> w
    else w in
  let w := assign_if (negb (is_null minPrice)) "price"
                     (Ops (mkOps None (Some minPrice) None)) w in
  let w :=
    if negb (is_null maxPrice)
    then <["price" := Ops (set_lte maxPrice (spread_ops w "price"))]> w
    else w in
  w.

Definition getPropertiesDynamic (db : Db)
    (isRent sortBy city propertyType minPrice maxPrice minYear maxYear
     furnished userId : JsVal) : Result (list Row) :=
  let isRent := default_param JNull isRent in
  let city := default_param JNull city in
  let propertyType := default_param JNull propertyType in
  let minPrice := default_param JNull minPrice in
  let maxPrice := default_param JNull maxPrice in
  let minYear := default_param JNull minYear in
  let maxYear := default_param JNull maxYear in
  let furnished := default_param JNull furnished in
  let userId := default_param JNull userId in
  let order := buildOrder sortBy in
  let w := whereCondition isRent city propertyType minPrice maxPrice
                          minYear maxYear furnished userId in
  try_catch
    (bind (Property_findAll db w order) (attachImagesToProperties db))
    (λ error, Throw (Error "Error fetching properties")).

(** ** api/controllers/propertyController.js *)

Record Request : Type := mkReq { params : Row; body : Row }.

(** [res.status(code).json({ message, property, error })] *)
Record Response : Type := mkRes {
  status : Z;
  res_message : string;
  res_property : option Row;
  res_error : option string }.

Module Controller.

Definition updateProperty (db : Db) (req : Request) : Response * Db :=
  let property_id := get (params req) "property_id" in
  let name := get (body req) "name" in
  let description := get (body req) "description" in
  let city := get (body req) "city" in
  let price := get (body req) "price" in
  let property_type := get (body req) "property_type" in
  let bedrooms := get (body req) "bedrooms" in
  let bathrooms := get (body req) "bathrooms" in
  let living_rooms := get (body req) "living_rooms" in
  let balconies := get (body req) "balconies" in
  let parking_spaces := get (body req) "parking_spaces" in
  let year_built := get (body req) "year_built" in
  let furnished := get (body req) "furnished" in
  match updateProperty db property_id name description city price property_type
          bedrooms bathrooms living_rooms balconies parking_spaces
          year_built furnished with
  | (Ok updatedProperty, db') =>
      (mkRes 200 "Property updated successfully" (Some updatedProperty) None, db')
  | (Throw error, db') =>
      (mkRes 400 "Error updating property" None (Some (message error)), db')
  end.

End Controller.

(** ** A sample store: the scenario of section 8 of the specification *)

Module Sample.

Definition property (id user : Z) (name city : string) (price year created : Z)
    (approved : bool) : Row :=
  obj [("property_id", JNum id); ("user_id", JNum user); ("name", JStr name);
       ("description", JStr "sea view"); ("city", JStr city); ("price", JNum price);
       ("property_type", JStr "villa"); ("square_meter", JNum 120);
       ("bedrooms", JNum 3); ("bathrooms", JNum 2); ("living_rooms", JNum 1);
       ("balconies", JNum 1); ("parking_spaces", JNum 1);
       ("furnished", JBool false); ("year_built", JNum year);
       ("isForRent", JBool false); ("isApproved", JBool approved);
       ("created_at", JDate created)].

Definition A : Row := property 1 7 "A" "Beirut" 100000 2000 1000 true.
Definition B : Row := property 2 7 "B" "Beirut" 200000 2010 2000 true.
Definition C : Row := property 3 8 "C" "Tripoli" 150000 2005 3000 false.

Definition image (id pid : Z) (url : string) : Row :=
  obj [("image_id", JNum id); ("property_id", JNum pid); ("image_url", JStr url)].

Definition lenient : option Row → Row → bool := λ _ _, true.
Definition refusal : option Row → Row → JsError := λ _ _, Error "Validation error".

Definition db : Db :=
  mkDb (list_to_map [(1, A); (2, B); (3, C)])
       (list_to_map [(5, image 5 1 "a-2.jpg"); (4, image 4 1 "a-1.jpg");
                     (6, image 6 2 "b-1.jpg")])
       4 None None lenient refusal.

(** The same store while its property table cannot be reached. *)
Definition db_down : Db :=
  mkDb (Properties db) (PropertyImages db) 4
       (Some (Error "connect ECONNREFUSED 127.0.0.1:3306")) None lenient refusal.

Definition U : JsVal := JUndefined.

End Sample.

(** ** The vocabulary of the statements *)

(** What the composer adds to one property while the image table answers. *)
Definition images_of (db : Db) (propertyId : JsVal) : list Row :=
  order_by [("image_id", ASC)]
    (filter (Matches {[ "property_id" := Plain propertyId ]})
            (table_rows (PropertyImages db))).

Definition with_images (db : Db) (property : Row) : Row :=
  <["images" := JArr ((λ img, get img "image_url") <$>
                        images_of db (get property "property_id"))]> property.

(** The predicate of section 4.1 in the specification's words: the
    approval constraint and each filter that is present, nothing for a
    filter that is absent. *)
Definition passes
    (isRent city propertyType minPrice maxPrice minYear maxYear furnished
     userId : JsVal) (r : Row) : Prop :=
  get r "isApproved" = JBool true
  ∧ (is_null isRent = false → sql_eq (get r "isForRent") isRent = true)
  ∧ (truthy city = true → sql_eq (get r "city") city = true)
  ∧ (truthy propertyType = true → sql_eq (get r "property_type") propertyType = true)
  ∧ (is_null furnished = false → sql_eq (get r "furnished") furnished = true)
  ∧ (is_null userId = false →
       sql_is_null (get r "user_id") = false ∧ sql_eq (get r "user_id") userId = false)
  ∧ (is_null minYear = false → sql_le minYear (get r "year_built") = true)
  ∧ (is_null maxYear = false → sql_le (get r "year_built") maxYear = true)
  ∧ (is_null minPrice = false → sql_le minPrice (get r "price") = true)
  ∧ (is_null maxPrice = false → sql_le (get r "price") maxPrice = true).

(** A row is listed by a call that answered. *)
Definition listed (result : Result (list Row)) (r : Row) : Prop :=
  ∃ rows, result = Ok rows ∧ r ∈ rows.

(** The six values of [sortBy] that [buildOrder] recognises. *)
Definition sort_keys : list string :=
  ["price_asc"; "price_desc"; "date_asc"; "date_desc"; "year_asc"; "year_desc"].

Definition key_le (a b : Z * Z) : Prop :=
  a.1 < b.1 ∨ (a.1 = b.1 ∧ a.2 ≤ b.2).

(** Every row comes no later than the rows after it, by the column [col]. *)
Definition non_decreasing (col : string) (rows : list Row) : Prop :=
  StronglySorted (λ r1 r2, key_le (col_key col r1) (col_key col r2)) rows.

Definition non_increasing (col : string) (rows : list Row) : Prop :=
  StronglySorted (λ r1 r2, key_le (col_key col r2) (col_key col r1)) rows.

(** The table invariant: every row is stored under its [property_id], and
    the AUTO_INCREMENT counter lies beyond every key in use. *)
Definition keyed (db : Db) : Prop :=
  map_Forall (λ k r, as_key (get r "property_id") = Some k ∧ k < next_property_id db)
             (Properties db).

#[export] Instance keyed_dec db : Decision (keyed db).
Proof. unfold keyed. apply _. Defined.

(** The property [p] has the name [name] under the user [user_id]. *)
Definition same_name_and_owner (name user_id : JsVal) (p : Row) : Prop :=
  sql_eq (get p "name") name = true ∧ sql_eq (get p "user_id") user_id = true.

#[export] Instance same_name_and_owner_dec name user_id p :
  Decision (same_name_and_owner name user_id p).
Proof. unfold same_name_and_owner. apply _. Defined.

Definition Conflict : JsError :=
  Error "Property with this name already exists for this user".

(** The columns [updateProperty] has no argument for. *)
Definition frame_columns : list string :=
  ["user_id"; "isApproved"; "isForRent"; "square_meter"; "created_at"; "property_id"].

(** The column [col] of the property stored under the key [k]. *)
Definition stored (db : Db) (k : Z) (col : string) : option JsVal :=
  (λ r, get r col) <$> Properties db !! k.

(** The property under the key [k] is there and approved. *)
Definition approved (db : Db) (k : Z) : Prop :=
  ∃ r, Properties db !! k = Some r ∧ get r "isApproved" = JBool true.

(** The operations the service exposes. *)
Inductive Call : Type :=
  | CreateProperty (now : Z)
      (name description city price property_type bedrooms bathrooms living_rooms
       balconies parking_spaces square_meter user_id isForRent furnished
       year_built : JsVal)
  | UpdateProperty
      (property_id name description city price property_type bedrooms bathrooms
       living_rooms balconies parking_spaces furnished year_built : JsVal)
  | UpdateRequest (req : Request)
  | DeleteProperty (property_id : JsVal)
  | ApproveProperty (property_id : JsVal)
  | GetPropertyById (property_id : JsVal)
  | GetApprovedProperties
  | GetNonApprovedProperties
  | GetPropertiesByType (propertyType : JsVal)
  | GetPropertiesByLocation (propertyType city : JsVal)
  | GetPropertiesByUserId (user_id : JsVal)
  | GetPropertiesDynamic
      (isRent sortBy city propertyType minPrice maxPrice minYear maxYear
       furnished userId : JsVal).

Inductive Outcome : Type :=
  | Returned (property : Result Row)
  | Listed (properties : Result (list Row))
  | Done (result : Result unit)
  | Responded (res : Response).

(** One call: what it gives back and the store it leaves. *)
Definition run (db : Db) (call : Call) : Outcome * Db :=
  match call with
  | CreateProperty now name description city price property_type bedrooms
      bathrooms living_rooms balconies parking_spaces square_meter user_id
      isForRent furnished year_built =>
      let (r, db') :=
        createProperty db now name description city price property_type bedrooms
          bathrooms living_rooms balconies parking_spaces square_meter user_id
          isForRent furnished year_built in
      (Returned r, db')
  | UpdateProperty property_id name description city price property_type
      bedrooms bathrooms living_rooms balconies parking_spaces furnished
      year_built =>
      let (r, db') :=
        updateProperty db property_id name description city price property_type
          bedrooms bathrooms living_rooms balconies parking_spaces furnished
          year_built in
      (Returned r, db')
  | UpdateRequest req =>
      let (res, db') := Controller.updateProperty db req in (Responded res, db')
  | DeleteProperty property_id =>
      let (r, db') := deleteProperty db property_id in (Done r, db')
  | ApproveProperty property_id =>
      let (r, db') := approveProperty db property_id in (Returned r, db')
  | GetPropertyById property_id => (Returned (getPropertyById db property_id), db)
  | GetApprovedProperties => (Listed (getApprovedProperties db), db)
  | GetNonApprovedProperties => (Listed (getNonApprovedProperties db), db)
  | GetPropertiesByType propertyType =>
      (Listed (getPropertiesByType db propertyType), db)
  | GetPropertiesByLocation propertyType city =>
      (Listed (getPropertiesByLocation db propertyType city), db)
  | GetPropertiesByUserId user_id => (Listed (getPropertiesByUserId db user_id), db)
  | GetPropertiesDynamic isRent sortBy city propertyType minPrice maxPrice
      minYear maxYear furnished userId =>
      (Listed (getPropertiesDynamic db isRent sortBy city propertyType minPrice
                 maxPrice minYear maxYear furnished userId), db)
  end.

(** The store after a sequence of calls. *)
Fixpoint run_all (db : Db) (calls : list Call) : Db :=
  match calls with
  | [] => db
  | call :: rest => run_all (run db call).2 rest
  end.

(** What holds of a key from the moment its property is approved. *)
Definition approved_or_gone (db : Db) (k : Z) : Prop :=
  keyed db ∧ k < next_property_id db
  ∧ (Properties db !! k = None ∨ approved db k).

(** ** The rest of api/services/propertyImageService.js *)

Definition PropertyImage_findByPk (db : Db) :=
  findByPk (PropertyImage_outage db) (PropertyImages db).

(** [image.destroy()] *)
Definition image_destroy (db : Db) (image : Row) : Result unit * Db :=
  match PropertyImage_outage db with
  | Some e => (Throw e, db)
  | None =>
      match as_key (get image "image_id") with
      | Some k =>
          (Ok (),
           with_tables db (Properties db) (delete k (PropertyImages db))
                       (next_property_id db))
      | None => (Ok (), db)
      end
  end.

(** The [throw] for a missing image sits inside the [try], so the [catch]
    wraps it like any other error. *)
Definition deleteImage (db : Db) (imageId : JsVal) : Result unit * Db :=
  let catch (error : JsError) : Result unit :=
    Throw (Error ("Failed to delete image: " +:+ message error)) in
  match PropertyImage_findByPk db imageId with
  | Throw error => (catch error, db)
  | Ok None => (catch (Error "Image not found"), db)
  | Ok (Some image) =>
      let (result, db') := image_destroy db image in
      (try_catch result catch, db')
  end.

(** ** The rest of api/controllers/propertyController.js *)

(** The [User] model, which the controller consults. *)
Record Users : Type := mkUsers {
  User_rows : gmap Z Row;
  User_outage : option JsError }.

Definition User_findByPk (users : Users) := findByPk (User_outage users) (User_rows users).

(** The shapes of the JSON bodies the handlers send. *)
Inductive Body : Type :=
  | Message (message : string)
  | MessageProperty (message : string) (property : Row)
  | MessageError (message error : string)
  | PropertyOnly (property : Row)
  | PropertiesObject (properties : list Row)
  | PropertiesArray (properties : list Row).

(** [res.status(code).json(sent)] *)
Record Reply : Type := mkReply { code : Z; sent : Body }.

Module PropertyController.

Definition createProperty (users : Users) (db : Db) (now : Z) (req : Request)
    : Reply * Db :=
  let name := get (body req) "name" in
  let description := get (body req) "description" in
  let city := get (body req) "city" in
  let price := get (body req) "price" in
  let property_type := get (body req) "property_type" in
  let bedrooms := get (body req) "bedrooms" in
  let bathrooms := get (body req) "bathrooms" in
  let living_rooms := get (body req) "living_rooms" in
  let balconies := get (body req) "balconies" in
  let parking_spaces := get (body req) "parking_spaces" in
  let square_meter := get (body req) "square_meter" in
  let user_id := get (body req) "user_id" in
  let isForRent := get (body req) "isForRent" in
  let year_built := get (body req) "year_built" in
  let furnished := get (body req) "furnished" in
  match User_findByPk users user_id with
  | Throw error => (mkReply 400 (MessageError "Error creating property" (message error)), db)
  | Ok None => (mkReply 404 (Message "User not found"), db)
  | Ok (Some user) =>
      match createProperty db now name description city price property_type
              bedrooms bathrooms living_rooms balconies parking_spaces
              square_meter user_id isForRent furnished year_built with
      | (Ok newProperty, db') =>
          (mkReply 201 (MessageProperty "Property created successfully" newProperty), db')
      | (Throw error, db') =>
          (mkReply 400 (MessageError "Error creating property" (message error)), db')
      end
  end.

Definition deleteProperty (db : Db) (req : Request) : Reply * Db :=
  let property_id := get (params req) "property_id" in
  match deleteProperty db property_id with
  | (Ok _, db') => (mkReply 200 (Message "Property deleted successfully"), db')
  | (Throw error, db') =>
      (mkReply 400 (MessageError "Error deleting property" (message error)), db')
  end.

Definition getPropertyById (db : Db) (req : Request) : Reply :=
  let property_id := get (params req) "property_id" in
  match getPropertyById db property_id with
  | Ok property => mkReply 200 (PropertyOnly property)
  | Throw error => mkReply 404 (MessageError "Property not found" (message error))
  end.

Definition getApprovedProperties (db : Db) (req : Request) : Reply :=
  match getApprovedProperties db with
  | Ok properties => mkReply 200 (PropertiesObject properties)
  | Throw error =>
      mkReply 400 (MessageError "Error fetching approved properties" (message error))
  end.

Definition getPropertiesDynamic (db : Db) (req : Request) : Reply :=
  let isRent := get (body req) "isRent" in
  let sortBy := get (body req) "sortBy" in
  let city := get (body req) "city" in
  let propertyType := get (body req) "propertyType" in
  let minPrice := get (body req) "minPrice" in
  let maxPrice := get (body req) "maxPrice" in
  let minYear := get (body req) "minYear" in
  let maxYear := get (body req) "maxYear" in
  let furnished := get (body req) "furnished" in
  let userId := get (body req) "userId" in
  match getPropertiesDynamic db isRent sortBy city propertyType minPrice maxPrice
          minYear maxYear furnished userId with
  | Ok properties => mkReply 200 (PropertiesArray properties)
  | Throw error => mkReply 400 (MessageError "Error fetching properties" (message error))
  end.

Definition getNonApprovedProperties (db : Db) (req : Request) : Reply :=
  match getNonApprovedProperties db with
  | Ok properties => mkReply 200 (PropertiesObject properties)
  | Throw error =>
      mkReply 400 (MessageError "Error fetching non-approved properties" (message error))
  end.

Definition getPropertiesByUserId (db : Db) (req : Request) : Reply :=
  let user_id := get (params req) "user_id" in
  match getPropertiesByUserId db user_id with
  | Ok properties => mkReply 200 (PropertiesObject properties)
  | Throw error =>
      mkReply 400 (MessageError "Error fetching properties by user ID" (message error))
  end.

Definition approveProperty (users : Users) (db : Db) (req : Request) : Reply * Db :=
  let property_id := get (params req) "property_id" in
  let user_id := get (body req) "user_id" in
  let forbidden := mkReply 403 (Message "User is not authorized to approve properties") in
  match User_findByPk users user_id with
  | Throw error => (mkReply 400 (MessageError "Error approving property" (message error)), db)
  | Ok None => (forbidden, db)
  | Ok (Some user) =>
      if negb (truthy (get user "isAdmin")) then (forbidden, db)
      else
        match approveProperty db property_id with
        | (Ok approvedProperty, db') =>
            (mkReply 200 (MessageProperty "Property approved successfully" approvedProperty),
             db')
        | (Throw error, db') =>
            (mkReply 400 (MessageError "Error approving property" (message error)), db')
        end
  end.

End PropertyController.

(** The users of the sample: an administrator and an owner. *)
Module People.

Definition Ada : Row :=
  obj [("user_id", JNum 1); ("first_name", JStr "Ada"); ("isAdmin", JBool true)].
Definition Omar : Row :=
  obj [("user_id", JNum 7); ("first_name", JStr "Omar"); ("isAdmin", JBool false)].

Definition users : Users := mkUsers (list_to_map [(1, Ada); (7, Omar)]) None.

End People.

(** The property under the key [k] has gone, and its key with it. *)
Definition gone (db : Db) (k : Z) : Prop :=
  keyed db ∧ k < next_property_id db ∧ Properties db !! k = None.

(** The validators and the database refuse no write. *)
Definition takes_every_write (db : Db) : Prop :=
  ∀ old fields, accepts db old fields = true.

(** The columns [updateProperty] has an argument for. *)
Definition update_columns : list string :=
  ["name"; "description"; "city"; "price"; "property_type"; "bedrooms";
   "bathrooms"; "living_rooms"; "balconies"; "parking_spaces"; "furnished";
   "year_built"].

(** The parts of the store no operation writes. *)
Definition same_settings (db db' : Db) : Prop :=
  Property_outage db' = Property_outage db
  ∧ PropertyImage_outage db' = PropertyImage_outage db
  ∧ accepts db' = accepts db
  ∧ rejection db' = rejection db.

(** Every image row is stored under its [image_id]. *)
Definition images_keyed (db : Db) : Prop :=
  map_Forall (λ k img, as_key (get img "image_id") = Some k) (PropertyImages db).

#[export] Instance images_keyed_dec db : Decision (images_keyed db).
Proof. unfold images_keyed. apply _. Defined.

(** ** api/helper/propertyBuilder.js, on whatever it is handed *)

(** What the composer can be handed: a model instance, as [findAll]
    returns them, whose [toJSON()] gives its row; or a plain object, as the
    composer itself returns them, which has no [toJSON]. *)
Inductive Given : Type :=
  | Instance (dataValues : Row)
  | PlainObject (fields : Row).

(** [property.k] *)
Definition member (property : Given) (k : string) : JsVal :=
  match property with
  | Instance dataValues => get dataValues k
  | PlainObject fields => get fields k
  end.

(** [property.toJSON()]; calling what is [undefined] is a TypeError. *)
Definition toJSON (property : Given) : Result Row :=
  match property with
  | Instance dataValues => Ok dataValues
  | PlainObject _ => Throw (Error "property.toJSON is not a function")
  end.

Module propertyBuilder.

Definition attachImagesToProperties (db : Db) (properties : list Given)
    : Result (list Row) :=
  promise_all
    (λ property,
       bind (getImagesByProperty db (member property "property_id")) (λ images,
       bind (toJSON property) (λ json,
       Ok (<["images" := JArr ((λ img, get img "image_url") <$> images)]> json))))
    properties.

End propertyBuilder.

(** * Properties *)

(** An equation between closed terms, settled by evaluating both sides. *)
Ltac evaluate :=
  match goal with |- ?lhs = ?rhs => vm_cast_no_check (eq_refl rhs) end.

(** A decidable closed proposition, settled by evaluating its decision. *)
Ltac decide_by_evaluation :=
  apply (bool_decide_eq_true_1 _); evaluate.

(** ** Objects *)

Lemma get_insert_eq (o : Row) k v : get (<[k := v]> o) k = v.
Proof. unfold get. by rewrite lookup_insert_eq. Qed.

Lemma get_insert_ne (o : Row) k k' v : k ≠ k' → get (<[k := v]> o) k' = get o k'.
Proof. intros. unfold get. by rewrite lookup_insert_ne. Qed.

Lemma get_union_l (o1 o2 : Row) k v : o1 !! k = Some v → get (o1 ∪ o2) k = v.
Proof. intros H. unfold get. by rewrite (lookup_union_Some_l _ _ _ _ H). Qed.

Lemma get_union_r (o1 o2 : Row) k : o1 !! k = None → get (o1 ∪ o2) k = get o2 k.
Proof. intros H. unfold get. by rewrite lookup_union_r. Qed.

Lemma defined_lookup (values : Row) k :
  defined values !! k =
    match values !! k with
    | Some v => if is_undefined v then None else Some v
    | None => None
    end.
Proof.
  unfold defined. destruct (values !! k) as [v|] eqn:E.
  - destruct (is_undefined v) eqn:U.
    + apply map_lookup_filter_None. right. intros v' E'. simpl. congruence.
    + apply map_lookup_filter_Some. by split.
  - apply map_lookup_filter_None. by left.
Qed.

(** ** Promises *)

Lemma promise_all_Ok {A B} (f : A → Result B) xs ys :
  promise_all f xs = Ok ys ↔ Forall2 (λ x y, f x = Ok y) xs ys.
Proof.
  revert ys. induction xs as [|x xs IH]; intros ys; simpl.
  - split.
    + intros [= <-]. constructor.
    + intros H. by inversion H.
  - destruct (f x) as [y|e] eqn:Ef; simpl.
    + destruct (promise_all f xs) as [ys'|e] eqn:Er; simpl.
      * split.
        -- intros [= <-]. constructor; [done|]. by apply IH.
        -- intros H. inversion H as [|? y' ? ys'' Hy Hys]; subst.
           apply IH in Hys. congruence.
      * split; [done|]. intros H. inversion H as [|? y' ? ys'' Hy Hys]; subst.
        apply IH in Hys. discriminate.
    + split; [done|]. intros H. inversion H; congruence.
Qed.

Lemma promise_all_total {A B} (f : A → Result B) (g : A → B) xs :
  (∀ x, x ∈ xs → f x = Ok (g x)) → promise_all f xs = Ok (g <$> xs).
Proof.
  induction xs as [|x xs IH]; intros H; simpl; [done|].
  rewrite H by left. simpl. rewrite IH; [done|].
  intros y Hy. apply H. by right.
Qed.

(** ** Queries *)

Lemma order_by_Permutation order rows : order_by order rows ≡ₚ rows.
Proof. destruct order; simpl; [done|]. apply merge_sort_Permutation. Qed.

Lemma findAll_Ok outage t w order rows :
  findAll outage t w order = Ok rows ↔
  outage = None ∧ rows = order_by order (filter (Matches w) (table_rows t)).
Proof.
  unfold findAll. destruct outage; split.
  - done.
  - by intros [? _].
  - intros [= <-]. done.
  - intros [_ ->]. done.
Qed.

Lemma findAll_elem outage t w order rows r :
  findAll outage t w order = Ok rows →
  r ∈ rows ↔ Matches w r ∧ r ∈ table_rows t.
Proof.
  intros [_ ->]%findAll_Ok. rewrite order_by_Permutation.
  apply list_elem_of_filter.
Qed.

Lemma table_rows_elem (t : gmap Z Row) r :
  r ∈ table_rows t ↔ ∃ k, t !! k = Some r.
Proof.
  unfold table_rows. rewrite list_elem_of_fmap. split.
  - intros [[k r'] [-> H]]. exists k. by apply elem_of_map_to_list.
  - intros [k H]. exists (k, r). split; [done|]. by apply elem_of_map_to_list.
Qed.

Lemma getImagesByProperty_up db pid :
  PropertyImage_outage db = None →
  getImagesByProperty db pid = Ok (images_of db pid).
Proof.
  intros H. unfold getImagesByProperty, PropertyImage_findAll, findAll.
  by rewrite H.
Qed.

Lemma getImagesByProperty_Ok db pid imgs :
  getImagesByProperty db pid = Ok imgs →
  PropertyImage_outage db = None ∧ imgs = images_of db pid.
Proof.
  unfold getImagesByProperty, PropertyImage_findAll, findAll.
  destruct (PropertyImage_outage db); simpl; [done|].
  intros [= <-]. done.
Qed.

Lemma attachImagesToProperties_up db properties :
  PropertyImage_outage db = None →
  attachImagesToProperties db properties = Ok (with_images db <$> properties).
Proof.
  intros H. unfold attachImagesToProperties. apply promise_all_total.
  intros p _. by rewrite getImagesByProperty_up.
Qed.

Lemma attachImagesToProperties_Ok db properties rows :
  attachImagesToProperties db properties = Ok rows →
  rows = with_images db <$> properties.
Proof.
  unfold attachImagesToProperties. intros H%promise_all_Ok.
  induction H as [|p r ps rs Hp _ IH]; [done|].
  simpl. f_equal; [|done].
  destruct (getImagesByProperty db (get p "property_id")) as [imgs|e] eqn:E;
    simpl in Hp; [|done].
  apply getImagesByProperty_Ok in E as [_ ->]. by injection Hp as <-.
Qed.

Lemma attachImagesToProperties_down db properties e :
  PropertyImage_outage db = Some e →
  attachImagesToProperties db properties =
    match properties with
    | [] => Ok []
    | _ => Throw (Error ("Failed to retrieve images: " +:+ message e))
    end.
Proof.
  intros H. destruct properties as [|p ps]; [done|].
  unfold attachImagesToProperties. simpl.
  unfold getImagesByProperty, PropertyImage_findAll, findAll. by rewrite H.
Qed.

Lemma with_images_get db p col : col ≠ "images" → get (with_images db p) col = get p col.
Proof. intros. unfold with_images. by apply get_insert_ne. Qed.

(** ** The where-object of [getPropertiesDynamic] *)

Lemma holds_Plain v x : is_null v = false → holds (Plain v) x = sql_eq x v.
Proof. by destruct v. Qed.

Lemma truthy_not_null v : truthy v = true → is_null v = false.
Proof. by destruct v. Qed.

Lemma sql_eq_true_bool x : sql_eq x (JBool true) = true ↔ x = JBool true.
Proof.
  split; [|by intros ->].
  destruct x as [| |[]| |s| |]; simpl; try done.
  unfold sql_number. by destruct (Z_of_string s).
Qed.

Lemma holds_approved x : holds (Plain (JBool true)) x = true ↔ x = JBool true.
Proof. apply sql_eq_true_bool. Qed.

Lemma holds_ne v x :
  holds (Ops (mkOps (Some v) None None)) x = true ↔
  sql_is_null x = false ∧ sql_eq x v = false.
Proof.
  simpl. rewrite !andb_true_r, andb_true_iff, !negb_true_iff. done.
Qed.

Lemma assign_if_lookup_ne t col c (w : Where) col' :
  col ≠ col' → assign_if t col c w !! col' = w !! col'.
Proof. intros. unfold assign_if. destruct t; [by rewrite lookup_insert_ne|done]. Qed.

Lemma Matches_assign_if t col c (w : Where) r :
  w !! col = None →
  Matches (assign_if t col c w) r ↔
  (t = true → holds c (get r col) = true) ∧ Matches w r.
Proof.
  intros Hw. unfold assign_if, Matches. destruct t.
  - rewrite map_Forall_insert by done. tauto.
  - intuition discriminate.
Qed.

Lemma Matches_year_step minYear maxYear (w : Where) r :
  w !! "year_built" = None →
  Matches
    (if negb (is_null minYear) || negb (is_null maxYear) then
       let y := no_ops in
       let y := if negb (is_null minYear) then set_gte minYear y else y in
       let y := if negb (is_null maxYear) then set_lte maxYear y else y in
       <["year_built" := Ops y]> w
     else w) r ↔
  (is_null minYear = false → sql_le minYear (get r "year_built") = true)
  ∧ (is_null maxYear = false → sql_le (get r "year_built") maxYear = true)
  ∧ Matches w r.
Proof.
  intros Hw. unfold Matches.
  destruct (is_null minYear), (is_null maxYear); simpl;
    rewrite ?map_Forall_insert by done; simpl;
    rewrite ?andb_true_iff; intuition (auto; discriminate).
Qed.

Lemma Matches_price_steps minPrice maxPrice (w : Where) r :
  w !! "price" = None →
  Matches
    (let w := assign_if (negb (is_null minPrice)) "price"
                        (Ops (mkOps None (Some minPrice) None)) w in
     if negb (is_null maxPrice)
     then <["price" := Ops (set_lte maxPrice (spread_ops w "price"))]> w
     else w) r ↔
  (is_null minPrice = false → sql_le minPrice (get r "price") = true)
  ∧ (is_null maxPrice = false → sql_le (get r "price") maxPrice = true)
  ∧ Matches w r.
Proof.
  intros Hw. unfold Matches, assign_if, spread_ops.
  destruct (is_null minPrice), (is_null maxPrice); simpl;
    rewrite ?lookup_insert_eq, ?Hw, ?insert_insert_eq; simpl;
    rewrite ?map_Forall_insert by done; simpl;
    rewrite ?andb_true_iff; intuition (auto; discriminate).
Qed.

(** The column has not been assigned by the statements so far. *)
Ltac fresh_column :=
  repeat match goal with |- context [if ?b then _ else _] => destruct b end;
  rewrite ?lookup_insert_ne, ?assign_if_lookup_ne by done; done.

Lemma whereCondition_passes
    isRent city propertyType minPrice maxPrice minYear maxYear furnished userId r :
  Matches (whereCondition isRent city propertyType minPrice maxPrice
                          minYear maxYear furnished userId) r ↔
  passes isRent city propertyType minPrice maxPrice minYear maxYear furnished userId r.
Proof.
  unfold whereCondition. cbv zeta.
  rewrite Matches_price_steps by fresh_column.
  rewrite Matches_year_step by fresh_column.
  rewrite !Matches_assign_if by fresh_column.
  unfold Matches. rewrite map_Forall_singleton. unfold passes.
  rewrite !negb_true_iff, holds_approved, holds_ne.
  pose proof truthy_not_null as Ht.
  split.
  - intros (Hlo & Hhi & Hylo & Hyhi & Hu & Hf & Hty & Hc & Hr & Ha).
    repeat split; try done; try (by apply Hu); intros Hpresent;
      rewrite <- holds_Plain by auto; auto.
  - intros (Ha & Hr & Hc & Hty & Hf & Hu & Hylo & Hyhi & Hlo & Hhi).
    repeat split; try done;
      first [ by apply Hu | intros Hpresent; rewrite holds_Plain by auto; auto ].
Qed.

(** [getPropertiesDynamic] answers only while the property table does; its
    answer is the matching rows, ordered, each with its images. *)
Lemma getPropertiesDynamic_Ok db
    isRent sortBy city propertyType minPrice maxPrice minYear maxYear furnished
    userId rows :
  getPropertiesDynamic db isRent sortBy city propertyType minPrice maxPrice
                       minYear maxYear furnished userId = Ok rows →
  Property_outage db = None
  ∧ rows = with_images db <$>
      order_by (buildOrder sortBy)
        (filter (Matches (whereCondition
                   (default_param JNull isRent) (default_param JNull city)
                   (default_param JNull propertyType) (default_param JNull minPrice)
                   (default_param JNull maxPrice) (default_param JNull minYear)
                   (default_param JNull maxYear) (default_param JNull furnished)
                   (default_param JNull userId)))
                (table_rows (Properties db))).
Proof.
  unfold getPropertiesDynamic. cbv zeta. unfold Property_findAll.
  match goal with |- context [findAll ?o ?t ?w ?ord] =>
    destruct (findAll o t w ord) as [ps|e] eqn:E end; simpl; [|done].
  apply findAll_Ok in E as [Hup ->].
  match goal with |- context [attachImagesToProperties db ?ps] =>
    destruct (attachImagesToProperties db ps) as [rs|e] eqn:E end; simpl; [|done].
  apply attachImagesToProperties_Ok in E. intros [= <-]. done.
Qed.

Lemma getPropertiesDynamic_up db
    isRent sortBy city propertyType minPrice maxPrice minYear maxYear furnished
    userId :
  Property_outage db = None → PropertyImage_outage db = None →
  getPropertiesDynamic db isRent sortBy city propertyType minPrice maxPrice
                       minYear maxYear furnished userId =
  Ok (with_images db <$>
      order_by (buildOrder sortBy)
        (filter (Matches (whereCondition
                   (default_param JNull isRent) (default_param JNull city)
                   (default_param JNull propertyType) (default_param JNull minPrice)
                   (default_param JNull maxPrice) (default_param JNull minYear)
                   (default_param JNull maxYear) (default_param JNull furnished)
                   (default_param JNull userId)))
                (table_rows (Properties db)))).
Proof.
  intros Hp Hi. unfold getPropertiesDynamic. cbv zeta.
  unfold Property_findAll, findAll. rewrite Hp. simpl.
  by rewrite attachImagesToProperties_up.
Qed.

(** While an image fetch fails, [getPropertiesDynamic] answers only when
    nothing matches. *)
Lemma getPropertiesDynamic_images_down db e
    isRent sortBy city propertyType minPrice maxPrice minYear maxYear furnished
    userId rows :
  PropertyImage_outage db = Some e →
  getPropertiesDynamic db isRent sortBy city propertyType minPrice maxPrice
                       minYear maxYear furnished userId = Ok rows →
  rows = [].
Proof.
  intros Hi. unfold getPropertiesDynamic. cbv zeta. unfold Property_findAll.
  match goal with |- context [findAll ?o ?t ?w ?ord] =>
    destruct (findAll o t w ord) as [ps|e'] eqn:E end; simpl; [|done].
  rewrite (attachImagesToProperties_down _ _ _ Hi).
  destruct ps; simpl; [|done]. by intros [= <-].
Qed.

Lemma passes_with_images db
    isRent city propertyType minPrice maxPrice minYear maxYear furnished userId p :
  passes isRent city propertyType minPrice maxPrice minYear maxYear furnished userId
         (with_images db p) ↔
  passes isRent city propertyType minPrice maxPrice minYear maxYear furnished userId p.
Proof. unfold passes. by rewrite !with_images_get. Qed.

Lemma getPropertiesDynamic_listed db
    isRent sortBy city propertyType minPrice maxPrice minYear maxYear furnished
    userId r :
  listed (getPropertiesDynamic db isRent sortBy city propertyType minPrice
            maxPrice minYear maxYear furnished userId) r ↔
  Property_outage db = None ∧ PropertyImage_outage db = None
  ∧ passes (default_param JNull isRent) (default_param JNull city)
           (default_param JNull propertyType) (default_param JNull minPrice)
           (default_param JNull maxPrice) (default_param JNull minYear)
           (default_param JNull maxYear) (default_param JNull furnished)
           (default_param JNull userId) r
  ∧ ∃ k p, Properties db !! k = Some p ∧ r = with_images db p.
Proof.
  split.
  - intros (rows & Hrows & Hr).
    destruct (PropertyImage_outage db) as [e|] eqn:Hi.
    { rewrite (getPropertiesDynamic_images_down _ _ _ _ _ _ _ _ _ _ _ _ _ Hi Hrows) in Hr.
      by apply elem_of_nil in Hr. }
    apply getPropertiesDynamic_Ok in Hrows as [Hup ->].
    apply list_elem_of_fmap in Hr as (p & -> & Hp).
    rewrite order_by_Permutation in Hp.
    apply list_elem_of_filter in Hp as [Hm Hp].
    apply table_rows_elem in Hp as [k Hk].
    split; [done|]. split; [done|]. split; [|by exists k, p].
    by apply passes_with_images, whereCondition_passes.
  - intros (Hup & Hi & Hpass & k & p & Hk & ->).
    eexists. split; [by apply getPropertiesDynamic_up|].
    apply list_elem_of_fmap. exists p. split; [done|].
    rewrite order_by_Permutation. apply list_elem_of_filter.
    split; [|apply table_rows_elem; by exists k].
    by apply whereCondition_passes, (passes_with_images db).
Qed.

Lemma getApprovedProperties_elem db rows r :
  getApprovedProperties db = Ok rows →
  r ∈ rows ↔ get r "isApproved" = JBool true ∧ ∃ k, Properties db !! k = Some r.
Proof.
  intros H. unfold getApprovedProperties, Property_findAll in H.
  rewrite (findAll_elem _ _ _ _ _ _ H), table_rows_elem.
  unfold Matches. by rewrite map_Forall_singleton, holds_approved.
Qed.

(** ** C1 *)

(** C1: whatever the filter arguments, every property in the result of
    [getPropertiesDynamic], and of [getApprovedProperties], has
    [isApproved = true]; none has [isApproved = false]. *)
Theorem C1_only_approved_are_listed db
    isRent sortBy city propertyType minPrice maxPrice minYear maxYear furnished
    userId rows r :
  getPropertiesDynamic db isRent sortBy city propertyType minPrice maxPrice
                       minYear maxYear furnished userId = Ok rows
  ∨ getApprovedProperties db = Ok rows →
  r ∈ rows →
  get r "isApproved" = JBool true ∧ get r "isApproved" ≠ JBool false.
Proof.
  intros Hres Hr.
  assert (get r "isApproved" = JBool true) as Ha.
  { destruct Hres as [Hres|Hres].
    - assert (listed (getPropertiesDynamic db isRent sortBy city propertyType
                minPrice maxPrice minYear maxYear furnished userId) r) as Hl
        by by exists rows.
      apply getPropertiesDynamic_listed in Hl as (_ & _ & Hpass & _).
      apply Hpass.
    - by apply (getApprovedProperties_elem _ _ _ Hres) in Hr as [? _]. }
  split; [done|]. by rewrite Ha.
Qed.

Lemma C1_only_approved_are_listed_witness :
  get (with_images Sample.db Sample.B) "isApproved" = JBool true
  ∧ get (with_images Sample.db Sample.B) "isApproved" ≠ JBool false.
Proof.
  apply (C1_only_approved_are_listed Sample.db
           Sample.U (JStr "price_desc") (JStr "Beirut") Sample.U Sample.U
           Sample.U Sample.U Sample.U Sample.U Sample.U
           [with_images Sample.db Sample.B; with_images Sample.db Sample.A]).
  - left. evaluate.
  - left.
Defined.

(** ** C2 *)

Lemma passes_none r :
  passes JNull JNull JNull JNull JNull JNull JNull JNull JNull r ↔
  get r "isApproved" = JBool true.
Proof. unfold passes. simpl. intuition discriminate. Qed.

(** The predicate of all the filters is the conjunction of the predicates
    of each filter taken alone. *)
Lemma passes_split
    isRent city propertyType minPrice maxPrice minYear maxYear furnished userId r :
  passes isRent city propertyType minPrice maxPrice minYear maxYear furnished userId r ↔
    passes isRent JNull JNull JNull JNull JNull JNull JNull JNull r
  ∧ passes JNull city JNull JNull JNull JNull JNull JNull JNull r
  ∧ passes JNull JNull propertyType JNull JNull JNull JNull JNull JNull r
  ∧ passes JNull JNull JNull JNull JNull JNull JNull furnished JNull r
  ∧ passes JNull JNull JNull JNull JNull JNull JNull JNull userId r
  ∧ passes JNull JNull JNull minPrice maxPrice JNull JNull JNull JNull r
  ∧ passes JNull JNull JNull JNull JNull minYear maxYear JNull JNull r.
Proof. unfold passes. simpl. intuition discriminate. Qed.

(** C2: a property is in the result of [getPropertiesDynamic] exactly when
    both tables answer, it is a stored property with its images, and it
    satisfies the approval constraint and every filter that is present
    (isRent, city, propertyType, furnished, excludeUserId, price range,
    year range), an absent filter asking nothing.  So the result set is the
    intersection of the result sets of each present filter applied alone,
    and with every filter absent it is all the approved properties of the
    store. *)
Theorem C2_filters_intersect db
    isRent sortBy city propertyType minPrice maxPrice minYear maxYear furnished
    userId r :
  (listed (getPropertiesDynamic db isRent sortBy city propertyType minPrice
             maxPrice minYear maxYear furnished userId) r ↔
       Property_outage db = None ∧ PropertyImage_outage db = None
     ∧ passes (default_param JNull isRent) (default_param JNull city)
              (default_param JNull propertyType) (default_param JNull minPrice)
              (default_param JNull maxPrice) (default_param JNull minYear)
              (default_param JNull maxYear) (default_param JNull furnished)
              (default_param JNull userId) r
     ∧ ∃ k p, Properties db !! k = Some p ∧ r = with_images db p)
  ∧ (listed (getPropertiesDynamic db isRent sortBy city propertyType minPrice
               maxPrice minYear maxYear furnished userId) r ↔
       listed (getPropertiesDynamic db isRent sortBy JNull JNull JNull JNull
                 JNull JNull JNull JNull) r
     ∧ listed (getPropertiesDynamic db JNull sortBy city JNull JNull JNull
                 JNull JNull JNull JNull) r
     ∧ listed (getPropertiesDynamic db JNull sortBy JNull propertyType JNull JNull
                 JNull JNull JNull JNull) r
     ∧ listed (getPropertiesDynamic db JNull sortBy JNull JNull JNull JNull
                 JNull JNull furnished JNull) r
     ∧ listed (getPropertiesDynamic db JNull sortBy JNull JNull JNull JNull
                 JNull JNull JNull userId) r
     ∧ listed (getPropertiesDynamic db JNull sortBy JNull JNull minPrice maxPrice
                 JNull JNull JNull JNull) r
     ∧ listed (getPropertiesDynamic db JNull sortBy JNull JNull JNull JNull
                 minYear maxYear JNull JNull) r)
  ∧ (listed (getPropertiesDynamic db JNull sortBy JNull JNull JNull JNull
               JNull JNull JNull JNull) r ↔
       Property_outage db = None ∧ PropertyImage_outage db = None
     ∧ get r "isApproved" = JBool true
     ∧ ∃ k p, Properties db !! k = Some p ∧ r = with_images db p).
Proof.
  split; [apply getPropertiesDynamic_listed|].
  rewrite !getPropertiesDynamic_listed. cbn [default_param].
  rewrite passes_none.
  rewrite (passes_split (default_param JNull isRent)).
  tauto.
Qed.

Example C2_sample_city_and_type :
  listed (getPropertiesDynamic Sample.db JNull (JStr "price_desc") (JStr "Beirut")
            (JStr "villa") JNull JNull JNull JNull JNull JNull)
         (with_images Sample.db Sample.A).
Proof.
  exists [with_images Sample.db Sample.B; with_images Sample.db Sample.A].
  split; [evaluate|]. right. left.
Qed.

(** A filter that is present constrains: the Beirut property is not in
    the result for Tripoli. *)
Example C2_sample_other_city :
  ¬ listed (getPropertiesDynamic Sample.db JNull (JStr "price_desc")
              (JStr "Tripoli") JNull JNull JNull JNull JNull JNull JNull)
           (with_images Sample.db Sample.A).
Proof.
  intros (_ & _ & (_ & _ & Hcity & _) & _)%getPropertiesDynamic_listed.
  assert (sql_eq (get (with_images Sample.db Sample.A) "city") (JStr "Tripoli")
          = false) as E by evaluate.
  specialize (Hcity eq_refl). cbn [default_param] in Hcity. congruence.
Qed.

(** ** C3 *)

Lemma sql_le_lower lo x :
  sql_le (JNum lo) x = true ↔ ∃ z, sql_number x = Some z ∧ lo ≤ z.
Proof.
  unfold sql_le. cbn [sql_number].
  destruct (sql_number x) as [z|]; split.
  - intros H%Z.leb_le. by exists z.
  - intros (z' & [= <-] & H). by apply Z.leb_le.
  - done.
  - by intros (z' & [=] & _).
Qed.

Lemma sql_le_upper hi x :
  sql_le x (JNum hi) = true ↔ ∃ z, sql_number x = Some z ∧ z ≤ hi.
Proof.
  unfold sql_le.
  assert (match x with
          | JDate _ | _ =>
              match sql_number x, sql_number (JNum hi) with
              | Some a, Some b => a <=? b
              | _, _ => false
              end
          end = match sql_number x with Some a => a <=? hi | None => false end) as ->
    by by destruct x.
  destruct (sql_number x) as [z|]; split.
  - intros H%Z.leb_le. by exists z.
  - intros (z' & [= <-] & H). by apply Z.leb_le.
  - done.
  - by intros (z' & [=] & _).
Qed.

Lemma sql_le_between lo hi x :
  sql_le (JNum lo) x = true ∧ sql_le x (JNum hi) = true ↔
  ∃ z, sql_number x = Some z ∧ lo ≤ z ≤ hi.
Proof.
  rewrite sql_le_lower, sql_le_upper. split.
  - intros [(z & Hz & Hlo) (z' & Hz' & Hhi)]. exists z.
    rewrite Hz in Hz'. injection Hz' as <-. done.
  - intros (z & Hz & Hlo & Hhi). split; by exists z.
Qed.

Lemma passes_price_range
    isRent city propertyType lo hi minYear maxYear furnished userId r :
  passes isRent city propertyType (JNum lo) (JNum hi) minYear maxYear furnished userId r ↔
  passes isRent city propertyType JNull JNull minYear maxYear furnished userId r
  ∧ ∃ z, sql_number (get r "price") = Some z ∧ lo ≤ z ≤ hi.
Proof.
  rewrite <- sql_le_between. unfold passes. simpl. intuition discriminate.
Qed.

Lemma passes_year_range
    isRent city propertyType minPrice maxPrice lo hi furnished userId r :
  passes isRent city propertyType minPrice maxPrice (JNum lo) (JNum hi) furnished userId r ↔
  passes isRent city propertyType minPrice maxPrice JNull JNull furnished userId r
  ∧ ∃ z, sql_number (get r "year_built") = Some z ∧ lo ≤ z ≤ hi.
Proof.
  rewrite <- sql_le_between. unfold passes. simpl. intuition discriminate.
Qed.

(** C3: with both price bounds given, a property is returned exactly when
    it is returned without them and [minPrice <= price <= maxPrice]; so
    every returned property lies within the bounds and a property whose
    price equals [minPrice] or [maxPrice] is included.  The same holds of
    [minYear], [maxYear] and [year_built]. *)
Theorem C3_ranges_are_inclusive db
    isRent sortBy city propertyType furnished userId lo hi r :
  (∀ minYear maxYear,
     listed (getPropertiesDynamic db isRent sortBy city propertyType (JNum lo)
               (JNum hi) minYear maxYear furnished userId) r ↔
     listed (getPropertiesDynamic db isRent sortBy city propertyType JNull
               JNull minYear maxYear furnished userId) r
     ∧ ∃ z, sql_number (get r "price") = Some z ∧ lo ≤ z ≤ hi)
  ∧ (∀ minYear maxYear,
       listed (getPropertiesDynamic db isRent sortBy city propertyType JNull
                 JNull minYear maxYear furnished userId) r →
       lo ≤ hi → get r "price" = JNum lo ∨ get r "price" = JNum hi →
       listed (getPropertiesDynamic db isRent sortBy city propertyType (JNum lo)
                 (JNum hi) minYear maxYear furnished userId) r)
  ∧ (∀ minPrice maxPrice,
       listed (getPropertiesDynamic db isRent sortBy city propertyType minPrice
                 maxPrice (JNum lo) (JNum hi) furnished userId) r ↔
       listed (getPropertiesDynamic db isRent sortBy city propertyType minPrice
                 maxPrice JNull JNull furnished userId) r
       ∧ ∃ z, sql_number (get r "year_built") = Some z ∧ lo ≤ z ≤ hi)
  ∧ (∀ minPrice maxPrice,
       listed (getPropertiesDynamic db isRent sortBy city propertyType minPrice
                 maxPrice JNull JNull furnished userId) r →
       lo ≤ hi → get r "year_built" = JNum lo ∨ get r "year_built" = JNum hi →
       listed (getPropertiesDynamic db isRent sortBy city propertyType minPrice
                 maxPrice (JNum lo) (JNum hi) furnished userId) r).
Proof.
  assert (∀ minYear maxYear,
     listed (getPropertiesDynamic db isRent sortBy city propertyType (JNum lo)
               (JNum hi) minYear maxYear furnished userId) r ↔
     listed (getPropertiesDynamic db isRent sortBy city propertyType JNull
               JNull minYear maxYear furnished userId) r
     ∧ ∃ z, sql_number (get r "price") = Some z ∧ lo ≤ z ≤ hi) as Hprice.
  { intros. rewrite !getPropertiesDynamic_listed. cbn [default_param].
    rewrite passes_price_range. tauto. }
  assert (∀ minPrice maxPrice,
       listed (getPropertiesDynamic db isRent sortBy city propertyType minPrice
                 maxPrice (JNum lo) (JNum hi) furnished userId) r ↔
       listed (getPropertiesDynamic db isRent sortBy city propertyType minPrice
                 maxPrice JNull JNull furnished userId) r
       ∧ ∃ z, sql_number (get r "year_built") = Some z ∧ lo ≤ z ≤ hi) as Hyear.
  { intros. rewrite !getPropertiesDynamic_listed. cbn [default_param].
    rewrite passes_year_range. tauto. }
  split; [done|]. split; [|split; [done|]].
  - intros minYear maxYear Hl Hle [Hp|Hp]; apply Hprice; (split; [done|]);
      rewrite Hp; [exists lo | exists hi]; simpl; split; [done|lia|done|lia].
  - intros minPrice maxPrice Hl Hle [Hp|Hp]; apply Hyear; (split; [done|]);
      rewrite Hp; [exists lo | exists hi]; simpl; split; [done|lia|done|lia].
Qed.

Lemma C3_ranges_are_inclusive_witness :
  listed (getPropertiesDynamic Sample.db JNull (JStr "price_asc") JNull JNull
            (JNum 100000) (JNum 150000) JNull JNull JNull JNull)
         (with_images Sample.db Sample.A).
Proof.
  destruct (C3_ranges_are_inclusive Sample.db JNull (JStr "price_asc") JNull JNull
              JNull JNull 100000 150000 (with_images Sample.db Sample.A))
    as (_ & Hincluded & _).
  apply (Hincluded JNull JNull).
  - exists [with_images Sample.db Sample.A; with_images Sample.db Sample.B].
    split; [evaluate|]. left.
  - lia.
  - left. evaluate.
Defined.

(** ** C4 *)

Lemma key_lt_trichotomy a b : key_lt a b ∨ a = b ∨ key_lt b a.
Proof. destruct a, b. unfold key_lt. simpl. destruct (decide (z = z1)), (decide (z0 = z2)); subst; auto; lia. Qed.

Lemma key_lt_trans a b c : key_lt a b → key_lt b c → key_lt a c.
Proof. unfold key_lt. lia. Qed.

Lemma key_lt_le a b : key_lt a b → key_le a b.
Proof. unfold key_lt, key_le. lia. Qed.

Lemma key_le_refl a : key_le a a.
Proof. unfold key_le. lia. Qed.

Lemma term_lt_trans t r1 r2 r3 : term_lt t r1 r2 → term_lt t r2 r3 → term_lt t r1 r3.
Proof. unfold term_lt. destruct (t.2); eauto using key_lt_trans. Qed.

Lemma term_trichotomy t r1 r2 : term_lt t r1 r2 ∨ term_tie t r1 r2 ∨ term_lt t r2 r1.
Proof.
  unfold term_lt, term_tie.
  destruct (t.2), (key_lt_trichotomy (col_key t.1 r1) (col_key t.1 r2)) as [|[|]]; auto.
Qed.

#[local] Instance order_le_total order : Total (order_le order).
Proof.
  intros r1 r2. induction order as [|t rest IH]; simpl; [by left|].
  unfold term_tie in *.
  destruct (term_trichotomy t r1 r2) as [|[E|]], IH; unfold term_tie in *; auto.
Qed.

#[local] Instance order_le_trans order : Transitive (order_le order).
Proof.
  intros r1 r2 r3. induction order as [|t rest IH]; simpl; [done|].
  unfold term_tie. intros [H12|[E12 H12]] [H23|[E23 H23]].
  - left. eauto using term_lt_trans.
  - left. unfold term_lt in *. rewrite <- E23. done.
  - left. unfold term_lt in *. rewrite E12. done.
  - right. split; [congruence|auto].
Qed.

Lemma order_by_sorted order rows :
  order ≠ [] → StronglySorted (order_le order) (order_by order rows).
Proof.
  intros H. destruct order as [|t rest]; [done|].
  apply (StronglySorted_merge_sort (order_le (t :: rest))).
Qed.

Lemma StronglySorted_impl {A} (R S : relation A) l :
  (∀ x y, R x y → S x y) → StronglySorted R l → StronglySorted S l.
Proof.
  intros HRS. induction 1 as [|x l _ IH Hx]; constructor; [done|].
  eapply Forall_impl; eauto.
Qed.

Lemma StronglySorted_fmap_2 {A B} (R : relation B) (f : A → B) l :
  StronglySorted (λ x y, R (f x) (f y)) l → StronglySorted R (f <$> l).
Proof.
  induction 1 as [|x l _ IH Hx]; simpl; constructor; [done|].
  by apply Forall_fmap.
Qed.

Lemma col_key_with_images db col p :
  col ≠ "images" → col_key col (with_images db p) = col_key col p.
Proof. intros. unfold col_key. by rewrite with_images_get. Qed.

Lemma order_by_ASC col rows :
  non_decreasing col (order_by [(col, ASC)] rows).
Proof.
  eapply StronglySorted_impl; [|by apply order_by_sorted].
  intros r1 r2 [H|[H _]].
  - by apply key_lt_le.
  - unfold term_tie in H. simpl in H. rewrite H. apply key_le_refl.
Qed.

Lemma order_by_DESC col rows :
  non_increasing col (order_by [(col, DESC)] rows).
Proof.
  eapply StronglySorted_impl; [|by apply order_by_sorted].
  intros r1 r2 [H|[H _]].
  - by apply key_lt_le.
  - unfold term_tie in H. simpl in H. rewrite H. apply key_le_refl.
Qed.

Lemma with_images_non_decreasing db col rows :
  col ≠ "images" → non_decreasing col rows → non_decreasing col (with_images db <$> rows).
Proof.
  intros Hc H. apply StronglySorted_fmap_2.
  eapply StronglySorted_impl; [|exact H].
  intros r1 r2. by rewrite !col_key_with_images.
Qed.

Lemma with_images_non_increasing db col rows :
  col ≠ "images" → non_increasing col rows → non_increasing col (with_images db <$> rows).
Proof.
  intros Hc H. apply StronglySorted_fmap_2.
  eapply StronglySorted_impl; [|exact H].
  intros r1 r2. by rewrite !col_key_with_images.
Qed.

Lemma buildOrder_unknown sortBy :
  (∀ k, k ∈ sort_keys → sortBy ≠ JStr k) → buildOrder sortBy = [].
Proof.
  intros H. unfold buildOrder.
  repeat match goal with
  | |- context [is_str sortBy ?k] =>
      destruct (is_str sortBy k) eqn:?E;
      [ destruct sortBy as [| | | |s| |]; simpl in E; try done;
        apply String.eqb_eq in E; subst s; exfalso;
        eapply H; [|reflexivity]; unfold sort_keys; set_solver
      | clear E ]
  end.
  done.
Qed.

(** C4: the rows [getPropertiesDynamic] returns are non-decreasing in
    [price] for [price_asc] and non-increasing for [price_desc], likewise in
    [created_at] for [date_asc] and [date_desc] and in [year_built] for
    [year_asc] and [year_desc]; for any other [sortBy] the call does not
    fail for that reason and returns the matching rows in the order the
    table yields them. *)
Theorem C4_sortBy_orders_the_result db
    isRent sortBy city propertyType minPrice maxPrice minYear maxYear furnished
    userId :
  (∀ rows,
     getPropertiesDynamic db isRent sortBy city propertyType minPrice maxPrice
                          minYear maxYear furnished userId = Ok rows →
       (sortBy = JStr "price_asc" → non_decreasing "price" rows)
     ∧ (sortBy = JStr "price_desc" → non_increasing "price" rows)
     ∧ (sortBy = JStr "date_asc" → non_decreasing "created_at" rows)
     ∧ (sortBy = JStr "date_desc" → non_increasing "created_at" rows)
     ∧ (sortBy = JStr "year_asc" → non_decreasing "year_built" rows)
     ∧ (sortBy = JStr "year_desc" → non_increasing "year_built" rows))
  ∧ ((∀ k, k ∈ sort_keys → sortBy ≠ JStr k) →
     Property_outage db = None → PropertyImage_outage db = None →
     getPropertiesDynamic db isRent sortBy city propertyType minPrice maxPrice
                          minYear maxYear furnished userId =
     Ok (with_images db <$>
           filter (Matches (whereCondition
                     (default_param JNull isRent) (default_param JNull city)
                     (default_param JNull propertyType) (default_param JNull minPrice)
                     (default_param JNull maxPrice) (default_param JNull minYear)
                     (default_param JNull maxYear) (default_param JNull furnished)
                     (default_param JNull userId)))
                  (table_rows (Properties db)))).
Proof.
  split.
  - intros rows [_ ->]%getPropertiesDynamic_Ok.
    repeat split; intros ->; cbn [buildOrder is_str String.eqb Ascii.eqb Bool.eqb];
      first [ apply with_images_non_decreasing; [done|apply order_by_ASC]
            | apply with_images_non_increasing; [done|apply order_by_DESC] ].
  - intros Hunknown Hp Hi.
    rewrite getPropertiesDynamic_up by done.
    by rewrite (buildOrder_unknown _ Hunknown).
Qed.

Lemma C4_sortBy_orders_the_result_witness :
  non_increasing "price" [with_images Sample.db Sample.B; with_images Sample.db Sample.A]
  ∧ getPropertiesDynamic Sample.db JNull (JStr "cheapest") (JStr "Beirut") JNull
      JNull JNull JNull JNull JNull JNull =
    Ok [with_images Sample.db Sample.B; with_images Sample.db Sample.A].
Proof.
  destruct (C4_sortBy_orders_the_result Sample.db JNull (JStr "price_desc")
              (JStr "Beirut") JNull JNull JNull JNull JNull JNull JNull)
    as [Hsorted _].
  destruct (C4_sortBy_orders_the_result Sample.db JNull (JStr "cheapest")
              (JStr "Beirut") JNull JNull JNull JNull JNull JNull JNull)
    as [_ Hnatural].
  split.
  - apply Hsorted; [evaluate|reflexivity].
  - rewrite Hnatural; [evaluate| |reflexivity|reflexivity].
    intros k Hk [= <-]. unfold sort_keys in Hk.
    repeat (apply elem_of_cons in Hk as [Hk|Hk]; [discriminate|]).
    by apply elem_of_nil in Hk.
Defined.

(** ** C5 *)


Lemma findOne_up t w :
  findOne None t w = Ok (head (filter (Matches w) (table_rows t))).
Proof. done. Qed.

Lemma findOne_None t w :
  (∀ k r, t !! k = Some r → ¬ Matches w r) → findOne None t w = Ok None.
Proof.
  intros H. rewrite findOne_up. f_equal.
  destruct (filter (Matches w) (table_rows t)) as [|r rows] eqn:E; [done|].
  assert (r ∈ filter (Matches w) (table_rows t)) as Hr by (rewrite E; left).
  apply list_elem_of_filter in Hr as [Hm [k Hk]%table_rows_elem].
  by destruct (H k r).
Qed.

Lemma findOne_Some t w k r :
  t !! k = Some r → Matches w r →
  ∃ r', findOne None t w = Ok (Some r') ∧ Matches w r'.
Proof.
  intros Hk Hm. rewrite findOne_up.
  assert (r ∈ filter (Matches w) (table_rows t)) as Hr.
  { apply list_elem_of_filter. split; [done|]. apply table_rows_elem. by exists k. }
  destruct (filter (Matches w) (table_rows t)) as [|r' rows] eqn:E.
  - by apply elem_of_nil in Hr.
  - exists r'. split; [done|].
    assert (r' ∈ filter (Matches w) (table_rows t)) as Hr' by (rewrite E; left).
    by apply list_elem_of_filter in Hr' as [? _].
Qed.

Lemma Matches_name_and_owner name user_id p :
  is_null name = false → is_null user_id = false →
  Matches (<["name" := Plain name]> {[ "user_id" := Plain user_id ]}) p ↔
  same_name_and_owner name user_id p.
Proof.
  intros Hn Hu. unfold Matches, same_name_and_owner.
  rewrite map_Forall_insert by done. rewrite map_Forall_singleton.
  by rewrite !holds_Plain.
Qed.

Lemma keyed_fresh db : keyed db → Properties db !! next_property_id db = None.
Proof.
  intros H. destruct (Properties db !! next_property_id db) as [r|] eqn:E; [|done].
  apply H in E as [_ ?]. lia.
Qed.

(** C5: [createProperty] fails with the conflict error and leaves the store
    as it was when the user already has a property of that name; when no
    property of that user has the name (whoever else has one) and the
    store takes the insert, it succeeds and the table gains the new row,
    under a key that was free, and nothing else. *)
Theorem C5_createProperty_conflict db now
    name description city price property_type bedrooms bathrooms living_rooms
    balconies parking_spaces square_meter user_id isForRent furnished year_built :
  Property_outage db = None →
  is_null name = false → is_null user_id = false →
  ((∃ k p, Properties db !! k = Some p ∧ same_name_and_owner name user_id p) →
     createProperty db now name description city price property_type bedrooms
       bathrooms living_rooms balconies parking_spaces square_meter user_id
       isForRent furnished year_built = (Throw Conflict, db))
  ∧ ((∀ k p, Properties db !! k = Some p → ¬ same_name_and_owner name user_id p) →
     (∀ row, accepts db None row = true) → keyed db →
     ∃ row db',
       createProperty db now name description city price property_type bedrooms
         bathrooms living_rooms balconies parking_spaces square_meter user_id
         isForRent furnished year_built = (Ok row, db')
       ∧ Properties db !! next_property_id db = None
       ∧ Properties db' = <[next_property_id db := row]> (Properties db)
       ∧ size (Properties db') = S (size (Properties db))
       ∧ PropertyImages db' = PropertyImages db
       ∧ get row "isApproved" = JBool false).
Proof.
  intros Hup Hn Hu. unfold createProperty, Property_findOne. rewrite Hup. split.
  - intros (k & p & Hk & Hsame).
    apply Matches_name_and_owner in Hsame; [|done..].
    destruct (findOne_Some _ _ _ _ Hk Hsame) as (p' & -> & _). reflexivity.
  - intros Hnone Hacc Hkeyed.
    rewrite findOne_None.
    2:{ intros k p Hk Hm. apply (Hnone k p Hk). by apply Matches_name_and_owner. }
    unfold Property_create. rewrite Hup, Hacc.
    pose proof (keyed_fresh _ Hkeyed) as Hfresh.
    eexists _, _. split; [reflexivity|]. cbn [Properties PropertyImages with_tables].
    split; [exact Hfresh|]. split; [reflexivity|].
    split; [by rewrite map_size_insert_None|]. split; [reflexivity|].
    rewrite get_insert_ne by (intros [=]).
    apply get_union_l, lookup_union_Some_l. rewrite defined_lookup.
    match goal with |- match ?o !! _ with _ => _ end = _ =>
      assert (o !! "isApproved" = Some (JBool false)) as -> by evaluate end.
    reflexivity.
Qed.

Lemma C5_createProperty_conflict_witness :
  createProperty Sample.db 4000 (JStr "A") (JStr "garden") (JStr "Beirut")
    (JNum 90000) (JStr "villa") (JNum 2) (JNum 1) Sample.U Sample.U Sample.U
    (JNum 80) (JNum 7) (JBool false) (JBool true) (JNum 1999)
  = (Throw Conflict, Sample.db)
  ∧ ∃ row db',
      createProperty Sample.db 4000 (JStr "A") (JStr "garden") (JStr "Beirut")
        (JNum 90000) (JStr "villa") (JNum 2) (JNum 1) Sample.U Sample.U Sample.U
        (JNum 80) (JNum 8) (JBool false) (JBool true) (JNum 1999)
      = (Ok row, db')
      ∧ Properties db' = <[4 := row]> (Properties Sample.db).
Proof.
  split.
  - apply (C5_createProperty_conflict Sample.db 4000 (JStr "A")); try reflexivity.
    exists 1, Sample.A. split; [reflexivity|]. split; evaluate.
  - destruct (C5_createProperty_conflict Sample.db 4000 (JStr "A") (JStr "garden")
                (JStr "Beirut") (JNum 90000) (JStr "villa") (JNum 2) (JNum 1)
                Sample.U Sample.U Sample.U (JNum 80) (JNum 8) (JBool false)
                (JBool true) (JNum 1999) eq_refl eq_refl eq_refl)
      as [_ Hcreated].
    destruct Hcreated as (row & db' & Hrun & _ & Htable & _).
    + change (map_Forall (λ _ p, ¬ same_name_and_owner (JStr "A") (JNum 8) p)
                         (Properties Sample.db)).
      decide_by_evaluation.
    + done.
    + decide_by_evaluation.
    + exists row, db'. by split.
Defined.

(** ** Writes *)

Lemma findByPk_Some db pid property :
  Property_findByPk db pid = Ok (Some property) →
  Property_outage db = None
  ∧ ∃ k, as_key pid = Some k ∧ Properties db !! k = Some property.
Proof.
  unfold Property_findByPk, findByPk.
  destruct (Property_outage db); [done|]. intros [= H]. split; [done|].
  destruct (as_key pid) as [k|]; [|done]. by exists k.
Qed.

Lemma write_back_cases db inst fields :
  write_back db inst fields = (Ok (fields ∪ inst),
     match as_key (get inst "property_id") with
     | Some k => with_Properties db (<[k := fields ∪ inst]> (Properties db))
     | None => db
     end)
  ∧ Property_outage db = None ∧ accepts db (Some inst) fields = true
  ∨ (∃ e, write_back db inst fields = (Throw e, db))
    ∧ (Property_outage db = None → accepts db (Some inst) fields = false).
Proof.
  unfold write_back. destruct (Property_outage db) as [e|].
  - right. split; [by exists e|done].
  - destruct (accepts db (Some inst) fields).
    + by left.
    + right. split; [by eexists|done].
Qed.

(** A write touches the row of its instance only, and there only the
    fields written. *)
Lemma write_back_frame db inst fields k0 k r col :
  keyed db → Properties db !! k0 = Some inst →
  Properties db !! k = Some r → fields !! col = None →
  ∃ r', Properties (write_back db inst fields).2 !! k = Some r'
        ∧ get r' col = get r col.
Proof.
  intros Hkeyed Hinst Hr Hcol.
  destruct (write_back_cases db inst fields) as [(-> & _)|[[e ->] _]];
    [|by exists r].
  destruct (Hkeyed _ _ Hinst) as [-> _]. cbn [snd with_Properties with_tables Properties].
  destruct (decide (k0 = k)) as [->|Hne].
  - rewrite lookup_insert_eq. eexists. split; [done|].
    rewrite get_union_r by done. congruence.
  - rewrite lookup_insert_ne by done. by exists r.
Qed.

Lemma write_back_keyed db inst fields k0 :
  keyed db → Properties db !! k0 = Some inst → fields !! "property_id" = None →
  keyed (write_back db inst fields).2
  ∧ next_property_id (write_back db inst fields).2 = next_property_id db.
Proof.
  intros Hkeyed Hinst Hcol.
  destruct (write_back_cases db inst fields) as [(-> & _)|[[e ->] _]]; [|done].
  destruct (Hkeyed _ _ Hinst) as [Hk0 Hlt]. rewrite Hk0.
  cbn [snd with_Properties with_tables Properties next_property_id].
  split; [|done]. unfold keyed. cbn [with_Properties with_tables Properties next_property_id].
  intros k r. destruct (decide (k0 = k)) as [->|Hne].
  - rewrite lookup_insert_eq. intros [= <-]. split; [|done].
    unfold get. rewrite lookup_union_r by done. apply Hk0.
  - rewrite lookup_insert_ne by done. apply Hkeyed.
Qed.

(** The values object of [updateProperty] has no entry for a frame column. *)
Lemma update_values_frame
    name description city price property_type bedrooms bathrooms living_rooms
    balconies parking_spaces furnished year_built col :
  col ∈ frame_columns →
  defined
    (obj [("name", name); ("description", description); ("city", city);
          ("price", price); ("property_type", property_type);
          ("bedrooms", bedrooms); ("bathrooms", bathrooms);
          ("living_rooms", living_rooms); ("balconies", balconies);
          ("parking_spaces", parking_spaces); ("furnished", furnished);
          ("year_built", year_built)]) !! col = None.
Proof.
  intros Hcol. rewrite defined_lookup.
  match goal with |- match ?o !! _ with _ => _ end = _ =>
    assert (o !! col = None) as ->; [|done] end.
  unfold frame_columns in Hcol.
  repeat (apply elem_of_cons in Hcol as [->|Hcol]; [evaluate|]).
  by apply elem_of_nil in Hcol.
Qed.

Lemma updateProperty_frame db
    property_id name description city price property_type bedrooms bathrooms
    living_rooms balconies parking_spaces furnished year_built k r col :
  keyed db → Properties db !! k = Some r → col ∈ frame_columns →
  ∃ r', Properties (updateProperty db property_id name description city price
                      property_type bedrooms bathrooms living_rooms balconies
                      parking_spaces furnished year_built).2 !! k = Some r'
        ∧ get r' col = get r col.
Proof.
  intros Hkeyed Hr Hcol. unfold updateProperty.
  destruct (Property_findByPk db property_id) as [[property|]|e] eqn:E;
    [|by exists r..].
  apply findByPk_Some in E as (_ & k0 & _ & Hk0).
  unfold instance_update.
  eapply write_back_frame; eauto using update_values_frame.
Qed.

Lemma updateProperty_keyed db
    property_id name description city price property_type bedrooms bathrooms
    living_rooms balconies parking_spaces furnished year_built :
  keyed db →
  keyed (updateProperty db property_id name description city price
           property_type bedrooms bathrooms living_rooms balconies
           parking_spaces furnished year_built).2
  ∧ next_property_id (updateProperty db property_id name description city price
           property_type bedrooms bathrooms living_rooms balconies
           parking_spaces furnished year_built).2 = next_property_id db.
Proof.
  intros Hkeyed. unfold updateProperty.
  destruct (Property_findByPk db property_id) as [[property|]|e] eqn:E; [|done..].
  apply findByPk_Some in E as (_ & k0 & _ & Hk0).
  unfold instance_update.
  eapply write_back_keyed; eauto.
  apply update_values_frame. unfold frame_columns. set_solver.
Qed.

(** The controller leaves the store as its call of the service does. *)
Lemma Controller_updateProperty_store db req :
  (Controller.updateProperty db req).2 =
  (updateProperty db (get (params req) "property_id")
     (get (body req) "name") (get (body req) "description")
     (get (body req) "city") (get (body req) "price")
     (get (body req) "property_type") (get (body req) "bedrooms")
     (get (body req) "bathrooms") (get (body req) "living_rooms")
     (get (body req) "balconies") (get (body req) "parking_spaces")
     (get (body req) "year_built") (get (body req) "furnished")).2.
Proof.
  unfold Controller.updateProperty. cbv zeta.
  match goal with |- context [updateProperty ?a ?b ?c ?d ?e ?f ?g ?h ?i ?j ?k ?l ?m ?n] =>
    destruct (updateProperty a b c d e f g h i j k l m n) as [[?|?] ?] end; done.
Qed.

(** ** C10 *)

(** C10: whatever its arguments, [updateProperty] leaves [user_id],
    [isApproved], [isForRent], [square_meter], [created_at] and
    [property_id] of every stored property as they were, called directly
    or through the controller. *)
Theorem C10_updateProperty_frame db k r col :
  keyed db → Properties db !! k = Some r → col ∈ frame_columns →
  (∀ property_id name description city price property_type bedrooms bathrooms
     living_rooms balconies parking_spaces furnished year_built,
     ∃ r', Properties (updateProperty db property_id name description city price
                         property_type bedrooms bathrooms living_rooms balconies
                         parking_spaces furnished year_built).2 !! k = Some r'
           ∧ get r' col = get r col)
  ∧ (∀ req,
       ∃ r', Properties (Controller.updateProperty db req).2 !! k = Some r'
             ∧ get r' col = get r col).
Proof.
  intros Hkeyed Hr Hcol. split.
  - intros. by apply updateProperty_frame.
  - intros req. rewrite Controller_updateProperty_store.
    by apply updateProperty_frame.
Qed.

Lemma C10_updateProperty_frame_witness :
  ∃ r', Properties
          (updateProperty Sample.db (JStr "1") (JStr "A2") Sample.U Sample.U
             (JNum 120000) Sample.U Sample.U Sample.U Sample.U Sample.U Sample.U
             Sample.U Sample.U).2 !! 1 = Some r'
        ∧ get r' "user_id" = get Sample.A "user_id".
Proof.
  apply (C10_updateProperty_frame Sample.db 1 Sample.A "user_id").
  - decide_by_evaluation.
  - reflexivity.
  - left.
Defined.

(** ** C6 *)

Lemma get_defined_union values (r : Row) col v :
  values !! col = Some v →
  get (defined values ∪ r) col = if is_undefined v then get r col else v.
Proof.
  intros Hv. destruct (is_undefined v) eqn:E.
  - apply get_union_r. by rewrite defined_lookup, Hv, E.
  - apply get_union_l. by rewrite defined_lookup, Hv, E.
Qed.

(** What [updateProperty] does to a property it finds. *)
Lemma updateProperty_found db
    property_id name description city price property_type bedrooms bathrooms
    living_rooms balconies parking_spaces furnished year_built k r :
  keyed db → Property_outage db = None →
  as_key property_id = Some k → Properties db !! k = Some r →
  let values :=
    defined
      (obj [("name", name); ("description", description); ("city", city);
            ("price", price); ("property_type", property_type);
            ("bedrooms", bedrooms); ("bathrooms", bathrooms);
            ("living_rooms", living_rooms); ("balconies", balconies);
            ("parking_spaces", parking_spaces); ("furnished", furnished);
            ("year_built", year_built)]) in
  updateProperty db property_id name description city price property_type
    bedrooms bathrooms living_rooms balconies parking_spaces furnished year_built =
  if accepts db (Some r) values
  then (Ok (values ∪ r), with_Properties db (<[k := values ∪ r]> (Properties db)))
  else (Throw (rejection db (Some r) values), db).
Proof.
  intros Hkeyed Hup Hpk Hr values.
  unfold updateProperty, Property_findByPk, findByPk. rewrite Hup, Hpk. simpl.
  rewrite Hr. unfold instance_update, write_back. rewrite Hup.
  destruct (Hkeyed _ _ Hr) as [-> _]. done.
Qed.

(** C6: an update request that reaches the controller carries [year_built]
    and [furnished]; when the property exists, either the write is refused
    and the store stays as it was (status 400), or it is made (status 200)
    and the column [year_built] then holds the [furnished] of the request
    and the column [furnished] its [year_built]: the two supplied fields do
    not take their supplied values. *)
Theorem C6_update_request_crosses_year_built_and_furnished db req k r :
  keyed db → Property_outage db = None →
  as_key (get (params req) "property_id") = Some k →
  Properties db !! k = Some r →
  is_undefined (get (body req) "year_built") = false →
  is_undefined (get (body req) "furnished") = false →
  (status (Controller.updateProperty db req).1 = 200
   ∧ ∃ r', Properties (Controller.updateProperty db req).2 !! k = Some r'
           ∧ get r' "year_built" = get (body req) "furnished"
           ∧ get r' "furnished" = get (body req) "year_built")
  ∨ (status (Controller.updateProperty db req).1 = 400
     ∧ (Controller.updateProperty db req).2 = db).
Proof.
  intros Hkeyed Hup Hpk Hr Hy Hf. unfold Controller.updateProperty. cbv zeta.
  rewrite (updateProperty_found _ _ _ _ _ _ _ _ _ _ _ _ _ _ _ _ Hkeyed Hup Hpk Hr).
  cbv zeta.
  match goal with |- context [accepts db ?i ?v] => destruct (accepts db i v) end;
    [left|by right].
  split; [done|]. cbn [snd with_Properties with_tables Properties].
  rewrite lookup_insert_eq. eexists. split; [done|].
  split.
  - erewrite get_defined_union by evaluate. by rewrite Hf.
  - erewrite get_defined_union by evaluate. by rewrite Hy.
Qed.

Lemma C6_update_request_crosses_year_built_and_furnished_witness :
  let req := mkReq (obj [("property_id", JStr "1")])
                   (obj [("year_built", JNum 2005); ("furnished", JBool true)]) in
  (status (Controller.updateProperty Sample.db req).1 = 200
   ∧ ∃ r', Properties (Controller.updateProperty Sample.db req).2 !! 1 = Some r'
           ∧ get r' "year_built" = get (body req) "furnished"
           ∧ get r' "furnished" = get (body req) "year_built")
  ∨ (status (Controller.updateProperty Sample.db req).1 = 400
     ∧ (Controller.updateProperty Sample.db req).2 = Sample.db).
Proof.
  intros req.
  apply (C6_update_request_crosses_year_built_and_furnished Sample.db req 1 Sample.A).
  - decide_by_evaluation.
  - reflexivity.
  - evaluate.
  - reflexivity.
  - evaluate.
  - evaluate.
Defined.

(** The request of the failing input, on the sample store: the answer is
    200 and the stored year is the boolean. *)
Example C6_sample_update_request :
  let req := mkReq (obj [("property_id", JStr "1")])
                   (obj [("year_built", JNum 2005); ("furnished", JBool true)]) in
  status (Controller.updateProperty Sample.db req).1 = 200
  ∧ stored (Controller.updateProperty Sample.db req).2 1 "year_built" = Some (JBool true)
  ∧ stored (Controller.updateProperty Sample.db req).2 1 "furnished" = Some (JNum 2005).
Proof. intros req. repeat split; evaluate. Qed.

(** ** C7 *)

Lemma write_back_lookup db inst fields k0 k :
  keyed db → Properties db !! k0 = Some inst →
  Properties (write_back db inst fields).2 !! k = Properties db !! k
  ∨ k = k0 ∧ Properties (write_back db inst fields).2 !! k = Some (fields ∪ inst).
Proof.
  intros Hkeyed Hinst.
  destruct (write_back_cases db inst fields) as [(-> & _)|[[e ->] _]]; [|by left].
  destruct (Hkeyed _ _ Hinst) as [-> _]. cbn [snd with_Properties with_tables Properties].
  destruct (decide (k0 = k)) as [->|Hne].
  - right. by rewrite lookup_insert_eq.
  - left. by rewrite lookup_insert_ne.
Qed.

Lemma write_back_approved_or_gone db inst fields k0 k :
  Properties db !! k0 = Some inst →
  fields !! "property_id" = None →
  (fields !! "isApproved" = None ∨ fields !! "isApproved" = Some (JBool true)) →
  approved_or_gone db k → approved_or_gone (write_back db inst fields).2 k.
Proof.
  intros Hinst Hpk Hfield (Hkeyed & Hlt & Hk).
  destruct (write_back_keyed db inst fields k0 Hkeyed Hinst Hpk) as [Hkeyed' Hnext].
  split; [done|]. split; [by rewrite Hnext|]. unfold approved in *.
  destruct (write_back_lookup db inst fields k0 k Hkeyed Hinst) as [->|[-> ->]].
  - destruct Hk as [Hk|(r & Hr & Ha)]; [by left|]. right. by exists r.
  - right. eexists. split; [done|].
    destruct Hk as [Hk|(r & Hr & Ha)]; [congruence|].
    assert (inst = r) as -> by congruence.
    destruct Hfield as [Hfield|Hfield].
    + by rewrite get_union_r.
    + by apply get_union_l.
Qed.

Lemma Property_create_approved_or_gone db now values k :
  approved_or_gone db k → approved_or_gone (Property_create db now values).2 k.
Proof.
  intros (Hkeyed & Hlt & Hk). unfold Property_create.
  destruct (Property_outage db); [done|].
  match goal with |- context [accepts db None ?row] =>
    destruct (accepts db None row); [|done] end.
  cbn [snd with_tables Properties next_property_id]. unfold approved_or_gone, keyed, approved.
  cbn [with_tables Properties next_property_id].
  split; [|split; [lia|]].
  - intros k' r'. destruct (decide (next_property_id db = k')) as [<-|Hne].
    + rewrite lookup_insert_eq. intros [= <-]. rewrite get_insert_eq.
      split; [done|lia].
    + rewrite lookup_insert_ne by done. intros [? ?]%Hkeyed. split; [done|lia].
  - rewrite lookup_insert_ne by lia. exact Hk.
Qed.

Lemma instance_destroy_approved_or_gone db inst k :
  approved_or_gone db k → approved_or_gone (instance_destroy db inst).2 k.
Proof.
  intros (Hkeyed & Hlt & Hk). unfold instance_destroy.
  destruct (Property_outage db); [done|].
  destruct (as_key (get inst "property_id")) as [k0|]; [|done].
  unfold approved_or_gone, keyed, approved.
  cbn [snd with_tables Properties next_property_id].
  split; [|split; [done|]].
  - intros k' r' [_ Hr']%lookup_delete_Some. by apply Hkeyed.
  - destruct (decide (k0 = k)) as [->|Hne].
    + left. apply lookup_delete_eq.
    + by rewrite lookup_delete_ne.
Qed.

Lemma updateProperty_approved_or_gone db
    property_id name description city price property_type bedrooms bathrooms
    living_rooms balconies parking_spaces furnished year_built k :
  approved_or_gone db k →
  approved_or_gone
    (updateProperty db property_id name description city price property_type
       bedrooms bathrooms living_rooms balconies parking_spaces furnished
       year_built).2 k.
Proof.
  intros H. unfold updateProperty.
  destruct (Property_findByPk db property_id) as [[property|]|e] eqn:E; [|done..].
  apply findByPk_Some in E as (_ & k0 & _ & Hk0).
  unfold instance_update.
  eapply write_back_approved_or_gone; eauto.
  - apply update_values_frame. unfold frame_columns. set_solver.
  - left. apply update_values_frame. unfold frame_columns. set_solver.
Qed.

Lemma createProperty_approved_or_gone db now
    name description city price property_type bedrooms bathrooms living_rooms
    balconies parking_spaces square_meter user_id isForRent furnished year_built k :
  approved_or_gone db k →
  approved_or_gone
    (createProperty db now name description city price property_type bedrooms
       bathrooms living_rooms balconies parking_spaces square_meter user_id
       isForRent furnished year_built).2 k.
Proof.
  intros H. unfold createProperty.
  match goal with |- context [Property_findOne db ?w] =>
    destruct (Property_findOne db w) as [[?|]|?] end; [done| |done].
  by apply Property_create_approved_or_gone.
Qed.

Lemma deleteProperty_approved_or_gone db property_id k :
  approved_or_gone db k → approved_or_gone (deleteProperty db property_id).2 k.
Proof.
  intros H. unfold deleteProperty.
  destruct (Property_findByPk db property_id) as [[property|]|e]; [|done..].
  by apply instance_destroy_approved_or_gone.
Qed.

Lemma approveProperty_approved_or_gone db property_id k :
  approved_or_gone db k → approved_or_gone (approveProperty db property_id).2 k.
Proof.
  intros H. unfold approveProperty.
  destruct (Property_findByPk db property_id) as [[property|]|e] eqn:E; [|done..].
  apply findByPk_Some in E as (_ & k0 & _ & Hk0).
  unfold instance_set_save.
  eapply write_back_approved_or_gone; eauto.
Qed.

(** The store a call leaves is the store its operation leaves. *)
Ltac store_of op :=
  match goal with |- approved_or_gone (let (_, _) := ?c in _).2 _ =>
    let H := fresh in
    assert (approved_or_gone c.2 _) as H by (by apply op);
    by destruct c
  end.

Lemma run_approved_or_gone db call k :
  approved_or_gone db k → approved_or_gone (run db call).2 k.
Proof.
  intros H. destruct call; cbn [run]; try done.
  - store_of createProperty_approved_or_gone.
  - store_of updateProperty_approved_or_gone.
  - pose proof (Controller_updateProperty_store db req) as E.
    destruct (Controller.updateProperty db req) as [res db']. simpl in E. subst db'.
    by apply updateProperty_approved_or_gone.
  - store_of deleteProperty_approved_or_gone.
  - store_of approveProperty_approved_or_gone.
Qed.

Lemma run_all_approved_or_gone db calls k :
  approved_or_gone db k → approved_or_gone (run_all db calls) k.
Proof.
  revert db. induction calls as [|call rest IH]; intros db H; simpl; [done|].
  by apply IH, run_approved_or_gone.
Qed.

(** C7: [approveProperty] leaves the property it finds approved, and from
    then on, whatever calls follow (create, update, delete, approve, the
    queries), the property is either gone or still approved; a key that has
    gone does not come back. *)
Theorem C7_approval_is_one_way db k :
  keyed db →
  (∀ property_id r,
     Property_outage db = None → as_key property_id = Some k →
     Properties db !! k = Some r →
     accepts db (Some r) {[ "isApproved" := JBool true ]} = true →
     approved (approveProperty db property_id).2 k)
  ∧ (approved db k →
     ∀ calls,
       Properties (run_all db calls) !! k = None ∨ approved (run_all db calls) k).
Proof.
  intros Hkeyed. split.
  - intros property_id r Hup Hpk Hr Hacc.
    unfold approveProperty, Property_findByPk, findByPk. rewrite Hup, Hpk. simpl.
    rewrite Hr. unfold instance_set_save, write_back. rewrite Hup, Hacc.
    destruct (Hkeyed _ _ Hr) as [-> _].
    unfold approved. cbn [snd with_Properties with_tables Properties].
    rewrite lookup_insert_eq. eexists. split; [done|].
    apply get_union_l, lookup_singleton_eq.
  - intros Ha calls.
    apply (run_all_approved_or_gone db calls k).
    split; [done|]. destruct Ha as (r & Hr & Ha).
    split; [by apply (Hkeyed _ _ Hr)|]. right. by exists r.
Qed.

Lemma C7_approval_is_one_way_witness :
  approved (approveProperty Sample.db (JStr "3")).2 3
  ∧ approved
      (run_all Sample.db
         [UpdateProperty (JNum 1) (JStr "A2") Sample.U Sample.U (JNum 1) Sample.U
            Sample.U Sample.U Sample.U Sample.U Sample.U (JBool true) Sample.U;
          ApproveProperty (JNum 1);
          GetApprovedProperties;
          DeleteProperty (JNum 2);
          CreateProperty 5000 (JStr "D") (JStr "new") (JStr "Saida") (JNum 5)
            (JStr "house") (JNum 1) (JNum 1) Sample.U Sample.U Sample.U (JNum 50)
            (JNum 7) (JBool true) (JBool false) (JNum 2020)]) 1.
Proof.
  split.
  - destruct (C7_approval_is_one_way Sample.db 3) as [Happrove _];
      [decide_by_evaluation|].
    apply (Happrove (JStr "3") Sample.C); [reflexivity|evaluate|reflexivity|reflexivity].
  - destruct (C7_approval_is_one_way Sample.db 1) as [_ Hstays];
      [decide_by_evaluation|].
    match goal with |- approved (run_all _ ?calls) _ =>
      destruct (Hstays (ex_intro _ Sample.A (conj eq_refl eq_refl)) calls)
        as [Hgone|Hthere] end; [|exact Hthere].
    exfalso. revert Hgone.
    match goal with |- ?m !! 1 = None → False =>
      assert (is_Some (m !! 1)) as [r ->]; [|done] end.
    apply (bool_decide_eq_true_1 _). evaluate.
Defined.

(** ** C8 *)

Lemma sql_eq_number x k : sql_eq x (JNum k) = true ↔ sql_number x = Some k.
Proof.
  assert (sql_eq x (JNum k) =
          match sql_number x with Some a => a =? k | None => false end) as ->
    by by destruct x.
  destruct (sql_number x) as [a|]; [|done].
  rewrite Z.eqb_eq. split; congruence.
Qed.

Lemma Matches_references k img :
  Matches {[ "property_id" := Plain (JNum k) ]} img ↔ references k img.
Proof.
  unfold Matches, references. rewrite map_Forall_singleton.
  cbn [holds]. apply sql_eq_number.
Qed.

Lemma images_of_references db k :
  images_of db (JNum k) ≡ₚ filter (references k) (table_rows (PropertyImages db)).
Proof.
  unfold images_of. rewrite order_by_Permutation.
  by rewrite (list_filter_iff _ (references k)) by apply Matches_references.
Qed.

(** C8: while the image table answers, the composer returns one row per
    input property, in the input order; each is its property with the
    field [images] added, the [image_url]s of exactly the image rows that
    reference the property, in ascending [image_id]; a property no image
    references gets the empty array. *)
Theorem C8_composer_attaches_images db properties :
  PropertyImage_outage db = None →
  ∃ rows,
    attachImagesToProperties db properties = Ok rows
    ∧ Forall2
        (λ p row,
           ∃ imgs,
             row = <["images" := JArr ((λ img, get img "image_url") <$> imgs)]> p
             ∧ non_decreasing "image_id" imgs
             ∧ ∀ k, get p "property_id" = JNum k →
                 imgs ≡ₚ filter (references k) (table_rows (PropertyImages db))
                 ∧ ((∀ img, img ∈ table_rows (PropertyImages db) → ¬ references k img) →
                    get row "images" = JArr []))
        properties rows.
Proof.
  intros Hup. exists (with_images db <$> properties).
  split; [by apply attachImagesToProperties_up|].
  apply Forall2_fmap_r, Forall_Forall2_diag, Forall_forall. intros p _.
  exists (images_of db (get p "property_id")).
  split; [done|]. split; [apply order_by_ASC|].
  intros k Hk. rewrite Hk. split; [apply images_of_references|].
  intros Hnone. unfold with_images. rewrite get_insert_eq, Hk.
  assert (filter (references k) (table_rows (PropertyImages db)) = []) as Hempty.
  { induction (table_rows (PropertyImages db)) as [|img imgs IH]; [done|].
    rewrite filter_cons_False by (apply Hnone; left).
    apply IH. intros img' Himg'. apply Hnone. by right. }
  assert (images_of db (JNum k) = []) as ->; [|done].
  apply Permutation_nil_r. by rewrite images_of_references, Hempty.
Qed.

Lemma C8_composer_attaches_images_witness :
  ∃ rows,
    attachImagesToProperties Sample.db [Sample.B; Sample.C; Sample.A] = Ok rows
    ∧ Forall2
        (λ p row,
           ∃ imgs,
             row = <["images" := JArr ((λ img, get img "image_url") <$> imgs)]> p
             ∧ non_decreasing "image_id" imgs
             ∧ ∀ k, get p "property_id" = JNum k →
                 imgs ≡ₚ filter (references k) (table_rows (PropertyImages Sample.db))
                 ∧ ((∀ img, img ∈ table_rows (PropertyImages Sample.db) →
                            ¬ references k img) →
                    get row "images" = JArr []))
        [Sample.B; Sample.C; Sample.A] rows.
Proof.
  apply (C8_composer_attaches_images Sample.db [Sample.B; Sample.C; Sample.A]).
  reflexivity.
Defined.

Example C8_sample_images :
  attachImagesToProperties Sample.db [Sample.B; Sample.C; Sample.A] =
  Ok [<["images" := JArr [JStr "b-1.jpg"]]> Sample.B;
      <["images" := JArr []]> Sample.C;
      <["images" := JArr [JStr "a-1.jpg"; JStr "a-2.jpg"]]> Sample.A].
Proof. evaluate. Qed.

(** ** C9 *)




(** * Further properties of the service *)

(** ** Updates *)

Lemma obj_lookup_None (l : list (string * JsVal)) col :
  col ∉ l.*1 → obj l !! col = None.
Proof. apply not_elem_of_list_to_map_1. Qed.

(** The service function updates exactly the columns whose argument is
    supplied: a column with an [undefined] argument, and every column it
    has no argument for, keeps its value; the other rows and the images
    are not touched; the row returned is the row stored. *)
Theorem updateProperty_partial db
    property_id name description city price property_type bedrooms bathrooms
    living_rooms balconies parking_spaces furnished year_built k r :
  keyed db → Property_outage db = None → takes_every_write db →
  as_key property_id = Some k → Properties db !! k = Some r →
  ∃ r',
    updateProperty db property_id name description city price property_type
      bedrooms bathrooms living_rooms balconies parking_spaces furnished
      year_built
    = (Ok r', with_Properties db (<[k := r']> (Properties db)))
    ∧ Forall (λ cv, get r' cv.1 = if is_undefined cv.2 then get r cv.1 else cv.2)
        [("name", name); ("description", description); ("city", city);
         ("price", price); ("property_type", property_type);
         ("bedrooms", bedrooms); ("bathrooms", bathrooms);
         ("living_rooms", living_rooms); ("balconies", balconies);
         ("parking_spaces", parking_spaces); ("furnished", furnished);
         ("year_built", year_built)]
    ∧ ∀ col, col ∉ update_columns → get r' col = get r col.
Proof.
  intros Hkeyed Hup Hacc Hpk Hr.
  rewrite (updateProperty_found _ _ _ _ _ _ _ _ _ _ _ _ _ _ _ _ Hkeyed Hup Hpk Hr).
  cbv zeta. rewrite Hacc. eexists. split; [done|]. split.
  - repeat (constructor; [by (apply get_defined_union; evaluate)|]). constructor.
  - intros col Hcol. apply get_union_r. rewrite defined_lookup.
    by rewrite obj_lookup_None.
Qed.

Lemma updateProperty_partial_witness :
  ∃ r',
    updateProperty Sample.db (JStr "1") (JStr "A2") Sample.U Sample.U (JNum 120000)
      Sample.U Sample.U Sample.U Sample.U Sample.U Sample.U Sample.U (JNum 2001)
    = (Ok r', with_Properties Sample.db (<[1 := r']> (Properties Sample.db)))
    ∧ Forall (λ cv, get r' cv.1 = if is_undefined cv.2 then get Sample.A cv.1 else cv.2)
        [("name", JStr "A2"); ("description", Sample.U); ("city", Sample.U);
         ("price", JNum 120000); ("property_type", Sample.U);
         ("bedrooms", Sample.U); ("bathrooms", Sample.U);
         ("living_rooms", Sample.U); ("balconies", Sample.U);
         ("parking_spaces", Sample.U); ("furnished", Sample.U);
         ("year_built", JNum 2001)]
    ∧ ∀ col, col ∉ update_columns → get r' col = get Sample.A col.
Proof.
  apply (updateProperty_partial Sample.db (JStr "1")).
  - decide_by_evaluation.
  - reflexivity.
  - intros old fields. reflexivity.
  - evaluate.
  - reflexivity.
Defined.

(** ** A property that is not there *)

(** When the key names no stored property (or is no number at all), update,
    delete, approve and the lookup all fail with "Property not found" and
    the store stays as it was. *)
Theorem property_not_found db property_id :
  Property_outage db = None →
  (∀ k, as_key property_id = Some k → Properties db !! k = None) →
  (∀ name description city price property_type bedrooms bathrooms living_rooms
     balconies parking_spaces furnished year_built,
     updateProperty db property_id name description city price property_type
       bedrooms bathrooms living_rooms balconies parking_spaces furnished
       year_built = (Throw (Error "Property not found"), db))
  ∧ deleteProperty db property_id = (Throw (Error "Property not found"), db)
  ∧ approveProperty db property_id = (Throw (Error "Property not found"), db)
  ∧ getPropertyById db property_id = Throw (Error "Property not found").
Proof.
  intros Hup Hnone.
  assert (Property_findByPk db property_id = Ok None) as E.
  { unfold Property_findByPk, findByPk. rewrite Hup. f_equal.
    destruct (as_key property_id) as [k|]; [|done]. by apply Hnone. }
  unfold updateProperty, deleteProperty, approveProperty, getPropertyById.
  by rewrite E.
Qed.

Lemma property_not_found_witness :
  deleteProperty Sample.db (JStr "forty-two") =
    (Throw (Error "Property not found"), Sample.db)
  ∧ getPropertyById Sample.db (JNum 42) = Throw (Error "Property not found").
Proof.
  split.
  - apply (property_not_found Sample.db (JStr "forty-two")); [reflexivity|].
    intros k. assert (as_key (JStr "forty-two") = None) as -> by evaluate. done.
  - apply (property_not_found Sample.db (JNum 42)); [reflexivity|].
    intros k [= <-]. evaluate.
Defined.

(** ** Deletion *)

Lemma deleteProperty_found db property_id k r :
  keyed db → Property_outage db = None →
  as_key property_id = Some k → Properties db !! k = Some r →
  deleteProperty db property_id =
    (Ok (), with_tables db (delete k (Properties db))
              (filter (λ kv, ¬ references k kv.2) (PropertyImages db))
              (next_property_id db)).
Proof.
  intros Hkeyed Hup Hpk Hr.
  unfold deleteProperty, Property_findByPk, findByPk. rewrite Hup, Hpk. simpl.
  rewrite Hr. unfold instance_destroy. rewrite Hup.
  by destruct (Hkeyed _ _ Hr) as [-> _].
Qed.

Lemma filter_none {A} (P : A → Prop) `{∀ x, Decision (P x)} (l : list A) :
  Forall (λ x, ¬ P x) l → filter P l = [].
Proof.
  induction 1 as [|x xs Hx _ IH]; [done|]. by rewrite filter_cons_False.
Qed.

(** Deleting a stored property removes its row and every image row that
    references it, and nothing else; the counter stays. *)
Theorem deleteProperty_cascades db property_id k r :
  keyed db → Property_outage db = None →
  as_key property_id = Some k → Properties db !! k = Some r →
  ∃ db',
    deleteProperty db property_id = (Ok (), db')
    ∧ Properties db' = delete k (Properties db)
    ∧ (∀ i img, PropertyImages db' !! i = Some img ↔
                PropertyImages db !! i = Some img ∧ ¬ references k img)
    ∧ next_property_id db' = next_property_id db
    ∧ (PropertyImage_outage db = None → getImagesByProperty db' (JNum k) = Ok []).
Proof.
  intros Hkeyed Hup Hpk Hr.
  rewrite (deleteProperty_found _ _ _ _ Hkeyed Hup Hpk Hr).
  eexists. split; [done|]. cbn [with_tables Properties PropertyImages next_property_id].
  split; [done|]. split.
  { intros i img. rewrite map_lookup_filter_Some. simpl. tauto. }
  split; [done|]. intros Hi.
  rewrite getImagesByProperty_up by done. f_equal.
  apply Permutation_nil_r. rewrite images_of_references.
  cbn [with_tables PropertyImages].
  rewrite filter_none; [done|].
  apply Forall_forall. intros img [i Hi']%table_rows_elem.
  by apply map_lookup_filter_Some in Hi' as [_ ?].
Qed.

Lemma deleteProperty_cascades_witness :
  ∃ db',
    deleteProperty Sample.db (JStr "1") = (Ok (), db')
    ∧ Properties db' = delete 1 (Properties Sample.db)
    ∧ (∀ i img, PropertyImages db' !! i = Some img ↔
                PropertyImages Sample.db !! i = Some img ∧ ¬ references 1 img)
    ∧ next_property_id db' = next_property_id Sample.db
    ∧ (PropertyImage_outage Sample.db = None →
       getImagesByProperty db' (JNum 1) = Ok []).
Proof.
  apply (deleteProperty_cascades Sample.db (JStr "1") 1 Sample.A).
  - decide_by_evaluation.
  - reflexivity.
  - evaluate.
  - reflexivity.
Defined.

(** ** What no call changes *)

Lemma same_settings_refl db : same_settings db db.
Proof. by repeat split. Qed.

Lemma same_settings_with_tables db t i n : same_settings db (with_tables db t i n).
Proof. by repeat split. Qed.

Create HintDb settings.
#[local] Hint Resolve same_settings_refl same_settings_with_tables : settings.

Lemma write_back_settings db inst fields :
  same_settings db (write_back db inst fields).2.
Proof.
  unfold write_back. destruct (Property_outage db); [auto with settings|].
  destruct (accepts db (Some inst) fields); [|auto with settings].
  destruct (as_key (get inst "property_id")); simpl; auto with settings.
  apply same_settings_with_tables.
Qed.

Lemma Property_create_settings db now values :
  same_settings db (Property_create db now values).2.
Proof.
  unfold Property_create. destruct (Property_outage db); [auto with settings|].
  match goal with |- context [accepts db None ?row] =>
    destruct (accepts db None row) end; simpl; auto with settings.
Qed.

Lemma instance_destroy_settings db inst :
  same_settings db (instance_destroy db inst).2.
Proof.
  unfold instance_destroy. destruct (Property_outage db); [auto with settings|].
  destruct (as_key (get inst "property_id")); simpl; auto with settings.
Qed.

Lemma updateProperty_settings db
    property_id name description city price property_type bedrooms bathrooms
    living_rooms balconies parking_spaces furnished year_built :
  same_settings db
    (updateProperty db property_id name description city price property_type
       bedrooms bathrooms living_rooms balconies parking_spaces furnished
       year_built).2.
Proof.
  unfold updateProperty.
  destruct (Property_findByPk db property_id) as [[property|]|e];
    auto using write_back_settings with settings.
  apply write_back_settings.
Qed.

Lemma run_settings db call : same_settings db (run db call).2.
Proof.
  destruct call; cbn [run]; auto with settings.
  - match goal with |- same_settings _ (let (_, _) := ?c in _).2 =>
      assert (same_settings db c.2) as H; [|by destruct c] end.
    unfold createProperty.
    match goal with |- context [Property_findOne db ?w] =>
      destruct (Property_findOne db w) as [[?|]|?] end; auto with settings.
    apply Property_create_settings.
  - match goal with |- same_settings _ (let (_, _) := ?c in _).2 =>
      assert (same_settings db c.2) as H; [|by destruct c] end.
    apply updateProperty_settings.
  - pose proof (Controller_updateProperty_store db req) as E.
    destruct (Controller.updateProperty db req) as [res db']. simpl in E. subst db'.
    apply updateProperty_settings.
  - match goal with |- same_settings _ (let (_, _) := ?c in _).2 =>
      assert (same_settings db c.2) as H; [|by destruct c] end.
    unfold deleteProperty.
    destruct (Property_findByPk db property_id) as [[property|]|e];
      auto with settings.
    apply instance_destroy_settings.
  - match goal with |- same_settings _ (let (_, _) := ?c in _).2 =>
      assert (same_settings db c.2) as H; [|by destruct c] end.
    unfold approveProperty.
    destruct (Property_findByPk db property_id) as [[property|]|e];
      auto with settings.
    apply write_back_settings.
Qed.

Lemma run_all_settings db calls : same_settings db (run_all db calls).
Proof.
  revert db. induction calls as [|call rest IH]; intros db; simpl;
    [auto with settings|].
  destruct (run_settings db call) as (? & ? & ? & ?).
  destruct (IH (run db call).2) as (? & ? & ? & ?).
  repeat split; congruence.
Qed.

(** ** A key that is free stays free *)

Lemma write_back_absent db inst fields k0 k :
  keyed db → Properties db !! k0 = Some inst → Properties db !! k = None →
  Properties (write_back db inst fields).2 !! k = None.
Proof.
  intros Hkeyed Hinst Hk.
  destruct (write_back_lookup db inst fields k0 k Hkeyed Hinst) as [->|[-> _]];
    [done|congruence].
Qed.

Lemma updateProperty_absent db
    property_id name description city price property_type bedrooms bathrooms
    living_rooms balconies parking_spaces furnished year_built k :
  keyed db → Properties db !! k = None →
  Properties
    (updateProperty db property_id name description city price property_type
       bedrooms bathrooms living_rooms balconies parking_spaces furnished
       year_built).2 !! k = None.
Proof.
  intros Hkeyed Hk. unfold updateProperty.
  destruct (Property_findByPk db property_id) as [[property|]|e] eqn:E; [|done..].
  apply findByPk_Some in E as (_ & k0 & _ & Hk0).
  by eapply write_back_absent.
Qed.

Lemma run_absent db call k :
  keyed db → k < next_property_id db → Properties db !! k = None →
  Properties (run db call).2 !! k = None.
Proof.
  intros Hkeyed Hlt Hk. destruct call; cbn [run]; try done.
  - match goal with |- Properties (let (_, _) := ?c in _).2 !! _ = _ =>
      assert (Properties c.2 !! k = None) as H'; [|by destruct c] end.
    unfold createProperty.
    match goal with |- context [Property_findOne db ?w] =>
      destruct (Property_findOne db w) as [[?|]|?] end; [done| |done].
    unfold Property_create. destruct (Property_outage db); [done|].
    match goal with |- context [accepts db None ?row] =>
      destruct (accepts db None row); [|done] end.
    cbn [snd with_tables Properties]. by rewrite lookup_insert_ne by lia.
  - match goal with |- Properties (let (_, _) := ?c in _).2 !! _ = _ =>
      assert (Properties c.2 !! k = None) as H'; [|by destruct c] end.
    by apply updateProperty_absent.
  - pose proof (Controller_updateProperty_store db req) as E.
    destruct (Controller.updateProperty db req) as [res db']. simpl in E. subst db'.
    by apply updateProperty_absent.
  - match goal with |- Properties (let (_, _) := ?c in _).2 !! _ = _ =>
      assert (Properties c.2 !! k = None) as H'; [|by destruct c] end.
    unfold deleteProperty.
    destruct (Property_findByPk db property_id) as [[property|]|e]; [|done..].
    unfold instance_destroy. destruct (Property_outage db); [done|].
    destruct (as_key (get property "property_id")) as [k0|]; [|done].
    cbn [snd with_tables Properties]. by apply lookup_delete_None; right.
  - match goal with |- Properties (let (_, _) := ?c in _).2 !! _ = _ =>
      assert (Properties c.2 !! k = None) as H'; [|by destruct c] end.
    unfold approveProperty.
    destruct (Property_findByPk db property_id) as [[property|]|e] eqn:E; [|done..].
    apply findByPk_Some in E as (_ & k0 & _ & Hk0).
    by eapply write_back_absent.
Qed.

Lemma run_all_gone db calls k : gone db k → gone (run_all db calls) k.
Proof.
  revert db. induction calls as [|call rest IH]; intros db H; simpl; [done|].
  apply IH. destruct H as (Hkeyed & Hlt & Hk).
  destruct (run_approved_or_gone db call k) as (Hkeyed' & Hlt' & _).
  { split; [done|]. split; [done|]. by left. }
  split; [done|]. split; [done|]. by apply run_absent.
Qed.

(** A deleted property does not come back: whatever calls follow its
    deletion, its key stays free (the counter does not hand it out again)
    and the lookup by that key fails. *)
Theorem deleted_property_stays_deleted db property_id k r calls :
  keyed db → Property_outage db = None →
  as_key property_id = Some k → Properties db !! k = Some r →
  Properties (run_all (deleteProperty db property_id).2 calls) !! k = None
  ∧ getPropertyById (run_all (deleteProperty db property_id).2 calls) (JNum k)
    = Throw (Error "Property not found").
Proof.
  intros Hkeyed Hup Hpk Hr.
  rewrite (deleteProperty_found _ _ _ _ Hkeyed Hup Hpk Hr). cbn [snd].
  match goal with |- context [run_all ?d calls] => set (db' := d) end.
  assert (gone db' k) as Hgone.
  { subst db'. unfold gone, keyed. cbn [with_tables Properties next_property_id].
    split; [|split].
    - intros i p [_ ?]%lookup_delete_Some. by apply Hkeyed.
    - by apply (Hkeyed _ _ Hr).
    - apply lookup_delete_eq. }
  destruct (run_all_gone db' calls k Hgone) as (_ & _ & Hk).
  destruct (run_all_settings db' calls) as (Hsame & _).
  split; [done|].
  unfold getPropertyById, Property_findByPk, findByPk.
  rewrite Hsame. subst db'. cbn [with_tables Property_outage]. rewrite Hup.
  simpl. by rewrite Hk.
Qed.

Lemma deleted_property_stays_deleted_witness :
  Properties
    (run_all (deleteProperty Sample.db (JNum 2)).2
       [CreateProperty 5000 (JStr "B") (JStr "again") (JStr "Beirut") (JNum 1)
          (JStr "villa") (JNum 1) (JNum 1) Sample.U Sample.U Sample.U (JNum 50)
          (JNum 7) (JBool false) (JBool false) (JNum 2020);
        ApproveProperty (JNum 2)]) !! 2 = None
  ∧ getPropertyById
      (run_all (deleteProperty Sample.db (JNum 2)).2
         [CreateProperty 5000 (JStr "B") (JStr "again") (JStr "Beirut") (JNum 1)
            (JStr "villa") (JNum 1) (JNum 1) Sample.U Sample.U Sample.U (JNum 50)
            (JNum 7) (JBool false) (JBool false) (JNum 2020);
          ApproveProperty (JNum 2)]) (JNum 2)
    = Throw (Error "Property not found").
Proof.
  apply (deleted_property_stays_deleted Sample.db (JNum 2) 2 Sample.B).
  - decide_by_evaluation.
  - reflexivity.
  - reflexivity.
  - reflexivity.
Defined.

(** ** Creation *)

Lemma createProperty_no_conflict db now
    name description city price property_type bedrooms bathrooms living_rooms
    balconies parking_spaces square_meter user_id isForRent furnished year_built :
  Property_outage db = None →
  is_null name = false → is_null user_id = false →
  (∀ k p, Properties db !! k = Some p → ¬ same_name_and_owner name user_id p) →
  createProperty db now name description city price property_type bedrooms
    bathrooms living_rooms balconies parking_spaces square_meter user_id
    isForRent furnished year_built =
  Property_create db now
    (obj [("user_id", user_id); ("name", name); ("description", description);
          ("city", city); ("price", price); ("property_type", property_type);
          ("bedrooms", bedrooms); ("bathrooms", bathrooms);
          ("living_rooms", living_rooms); ("balconies", balconies);
          ("parking_spaces", parking_spaces); ("square_meter", square_meter);
          ("isForRent", isForRent); ("furnished", furnished);
          ("year_built", year_built); ("isApproved", JBool false);
          ("created_at", JDate now)]).
Proof.
  intros Hup Hn Hu Hnone. unfold createProperty, Property_findOne.
  rewrite Hup, findOne_None; [done|].
  intros k p Hk Hm. apply (Hnone k p Hk). by apply Matches_name_and_owner.
Qed.

Lemma Property_create_accepted db now values :
  Property_outage db = None → takes_every_write db →
  let row := <["property_id" := JNum (next_property_id db)]>
               (defined values ∪ Property_defaults now ∪ null_row Property_columns) in
  Property_create db now values =
    (Ok row, with_tables db (<[next_property_id db := row]> (Properties db))
               (PropertyImages db) (next_property_id db + 1)).
Proof. intros Hup Hacc row. unfold Property_create. by rewrite Hup, Hacc. Qed.

(** A column of a created row: the value given, or the column's default. *)
Lemma get_created values now id col v d :
  col ≠ "property_id" → values !! col = Some v →
  get (Property_defaults now ∪ null_row Property_columns) col = d →
  get (<["property_id" := id]>
         (defined values ∪ Property_defaults now ∪ null_row Property_columns)) col
  = default_param d v.
Proof.
  intros Hcol Hv Hd. rewrite get_insert_ne by done.
  rewrite <- (assoc_L (∪)).
  destruct (is_undefined v) eqn:E.
  - rewrite get_union_r by (by rewrite defined_lookup, Hv, E).
    by destruct v.
  - erewrite get_union_l by (by rewrite defined_lookup, Hv, E).
    by destruct v.
Qed.

(** What [createProperty] stores when it succeeds: the row it returns,
    under the counter's key, found again by [getPropertyById]; each column
    holds the argument given, or the model's default where the argument is
    [undefined] (NULL where the model has none); the row is unapproved and
    dated now, whatever the caller says. *)
Theorem createProperty_round_trip db now
    name description city price property_type bedrooms bathrooms living_rooms
    balconies parking_spaces square_meter user_id isForRent furnished year_built :
  Property_outage db = None → takes_every_write db →
  is_null name = false → is_null user_id = false →
  (∀ k p, Properties db !! k = Some p → ¬ same_name_and_owner name user_id p) →
  ∃ row db',
    createProperty db now name description city price property_type bedrooms
      bathrooms living_rooms balconies parking_spaces square_meter user_id
      isForRent furnished year_built = (Ok row, db')
    ∧ getPropertyById db' (JNum (next_property_id db)) = Ok row
    ∧ next_property_id db' = next_property_id db + 1
    ∧ get row "property_id" = JNum (next_property_id db)
    ∧ get row "isApproved" = JBool false
    ∧ get row "created_at" = JDate now
    ∧ Forall (λ cvd, get row cvd.1.1 = default_param cvd.2 cvd.1.2)
        [("user_id", user_id, JNull); ("name", name, JNull);
         ("description", description, JNull); ("city", city, JNull);
         ("price", price, JNull); ("property_type", property_type, JNull);
         ("bedrooms", bedrooms, JNull); ("bathrooms", bathrooms, JNull);
         ("living_rooms", living_rooms, JNum 1); ("balconies", balconies, JNum 0);
         ("parking_spaces", parking_spaces, JNum 0);
         ("square_meter", square_meter, JNull);
         ("isForRent", isForRent, JBool false); ("furnished", furnished, JBool false);
         ("year_built", year_built, JNull)].
Proof.
  intros Hup Hacc Hn Hu Hnone.
  rewrite createProperty_no_conflict by done.
  match goal with |- context [Property_create db now ?vals] => set (values := vals) end.
  rewrite Property_create_accepted by done. cbv zeta.
  set (row := <["property_id" := _]> _).
  assert (∀ col v d,
            col ≠ "property_id" → values !! col = Some v →
            get (Property_defaults now ∪ null_row Property_columns) col = d →
            get row col = default_param d v) as Hcolumn
    by (intros; by apply get_created).
  assert (get row "property_id" = JNum (next_property_id db)) as Hid
    by apply get_insert_eq.
  assert (get row "isApproved" = JBool false) as Hunapproved
    by (apply (Hcolumn _ (JBool false) (JBool false)); [done|evaluate|evaluate]).
  assert (get row "created_at" = JDate now) as Hdated
    by (apply (Hcolumn _ (JDate now) (JDate now)); [done|evaluate|evaluate]).
  assert (Forall (λ cvd, get row cvd.1.1 = default_param cvd.2 cvd.1.2)
        [("user_id", user_id, JNull); ("name", name, JNull);
         ("description", description, JNull); ("city", city, JNull);
         ("price", price, JNull); ("property_type", property_type, JNull);
         ("bedrooms", bedrooms, JNull); ("bathrooms", bathrooms, JNull);
         ("living_rooms", living_rooms, JNum 1); ("balconies", balconies, JNum 0);
         ("parking_spaces", parking_spaces, JNum 0);
         ("square_meter", square_meter, JNull);
         ("isForRent", isForRent, JBool false); ("furnished", furnished, JBool false);
         ("year_built", year_built, JNull)]) as Hcolumns.
  { repeat (constructor; [apply Hcolumn; [done|evaluate|evaluate]|]). constructor. }
  clearbody row. clear Hcolumn. clearbody values.
  exists row. eexists. split; [done|]. split; [|done].
  unfold getPropertyById, Property_findByPk, findByPk.
  cbn [with_tables Property_outage Properties]. rewrite Hup. simpl.
  by rewrite lookup_insert_eq.
Qed.

Lemma createProperty_round_trip_witness :
  ∃ row db',
    createProperty Sample.db 4000 (JStr "D") (JStr "garden") (JStr "Saida")
      (JNum 90000) (JStr "villa") (JNum 2) (JNum 1) Sample.U Sample.U Sample.U
      (JNum 80) (JNum 8) Sample.U (JBool true) Sample.U = (Ok row, db')
    ∧ getPropertyById db' (JNum (next_property_id Sample.db)) = Ok row
    ∧ next_property_id db' = next_property_id Sample.db + 1
    ∧ get row "property_id" = JNum (next_property_id Sample.db)
    ∧ get row "isApproved" = JBool false
    ∧ get row "created_at" = JDate 4000
    ∧ Forall (λ cvd, get row cvd.1.1 = default_param cvd.2 cvd.1.2)
        [("user_id", JNum 8, JNull); ("name", JStr "D", JNull);
         ("description", JStr "garden", JNull); ("city", JStr "Saida", JNull);
         ("price", JNum 90000, JNull); ("property_type", JStr "villa", JNull);
         ("bedrooms", JNum 2, JNull); ("bathrooms", JNum 1, JNull);
         ("living_rooms", Sample.U, JNum 1); ("balconies", Sample.U, JNum 0);
         ("parking_spaces", Sample.U, JNum 0);
         ("square_meter", JNum 80, JNull);
         ("isForRent", Sample.U, JBool false); ("furnished", JBool true, JBool false);
         ("year_built", Sample.U, JNull)].
Proof.
  apply (createProperty_round_trip Sample.db 4000 (JStr "D")).
  - reflexivity.
  - intros old fields. reflexivity.
  - reflexivity.
  - reflexivity.
  - change (map_Forall (λ _ p, ¬ same_name_and_owner (JStr "D") (JNum 8) p)
                       (Properties Sample.db)).
    decide_by_evaluation.
Defined.

(** ** Approval *)

Lemma approveProperty_found db property_id k r :
  keyed db → Property_outage db = None → takes_every_write db →
  as_key property_id = Some k → Properties db !! k = Some r →
  approveProperty db property_id =
    (Ok ({[ "isApproved" := JBool true ]} ∪ r),
     with_Properties db
       (<[k := {[ "isApproved" := JBool true ]} ∪ r]> (Properties db))).
Proof.
  intros Hkeyed Hup Hacc Hpk Hr.
  unfold approveProperty, Property_findByPk, findByPk. rewrite Hup, Hpk. simpl.
  rewrite Hr. unfold instance_set_save, write_back. rewrite Hup, Hacc.
  by destruct (Hkeyed _ _ Hr) as [-> _].
Qed.

(** Approving sets [isApproved] and nothing else, on that property and no
    other; approving again changes nothing more. *)
Theorem approveProperty_idempotent db property_id k r :
  keyed db → Property_outage db = None → takes_every_write db →
  as_key property_id = Some k → Properties db !! k = Some r →
  ∃ r' db',
    approveProperty db property_id = (Ok r', db')
    ∧ Properties db' !! k = Some r'
    ∧ get r' "isApproved" = JBool true
    ∧ (∀ col, col ≠ "isApproved" → get r' col = get r col)
    ∧ (∀ k', k' ≠ k → Properties db' !! k' = Properties db !! k')
    ∧ PropertyImages db' = PropertyImages db
    ∧ approveProperty db' property_id = (Ok r', db').
Proof.
  intros Hkeyed Hup Hacc Hpk Hr.
  rewrite (approveProperty_found _ _ _ _ Hkeyed Hup Hacc Hpk Hr).
  eexists _, _. split; [done|]. cbn [with_Properties with_tables Properties PropertyImages].
  split; [apply lookup_insert_eq|].
  split; [apply get_union_l, lookup_singleton_eq|].
  split; [intros col Hcol; apply get_union_r; by rewrite lookup_singleton_ne|].
  split; [intros k' Hk'; by rewrite lookup_insert_ne|].
  split; [done|].
  set (r' := {[ "isApproved" := JBool true ]} ∪ r).
  assert (as_key (get r' "property_id") = Some k) as Hkey.
  { subst r'. rewrite get_union_r by done. by apply (Hkeyed _ _ Hr). }
  unfold approveProperty, Property_findByPk, findByPk.
  cbn [with_Properties with_tables Property_outage Properties].
  rewrite Hup, Hpk. simpl. rewrite lookup_insert_eq.
  unfold instance_set_save, write_back.
  cbn [with_Properties with_tables Property_outage Properties accepts].
  rewrite Hup, Hacc, Hkey.
  assert ({[ "isApproved" := JBool true ]} ∪ r' = r') as ->.
  { subst r'. by rewrite (assoc_L (∪)), (idemp_L (∪)). }
  unfold with_Properties, with_tables.
  cbn [Properties PropertyImages next_property_id Property_outage
       PropertyImage_outage accepts rejection].
  by rewrite insert_insert_eq.
Qed.

Lemma approveProperty_idempotent_witness :
  ∃ r' db',
    approveProperty Sample.db (JStr "3") = (Ok r', db')
    ∧ Properties db' !! 3 = Some r'
    ∧ get r' "isApproved" = JBool true
    ∧ (∀ col, col ≠ "isApproved" → get r' col = get Sample.C col)
    ∧ (∀ k', k' ≠ 3 → Properties db' !! k' = Properties Sample.db !! k')
    ∧ PropertyImages db' = PropertyImages Sample.db
    ∧ approveProperty db' (JStr "3") = (Ok r', db').
Proof.
  apply (approveProperty_idempotent Sample.db (JStr "3") 3 Sample.C).
  - decide_by_evaluation.
  - reflexivity.
  - intros old fields. reflexivity.
  - evaluate.
  - reflexivity.
Defined.

Lemma getApprovedProperties_listed db r :
  listed (getApprovedProperties db) r ↔
  Property_outage db = None
  ∧ get r "isApproved" = JBool true ∧ ∃ k, Properties db !! k = Some r.
Proof.
  split.
  - intros (rows & Hrows & Hr).
    pose proof Hrows as [Hup _]%findAll_Ok.
    by apply (getApprovedProperties_elem _ _ _ Hrows) in Hr.
  - intros (Hup & Ha & Hk).
    unfold getApprovedProperties, Property_findAll, findAll. rewrite Hup.
    eexists. split; [done|].
    assert (findAll None (Properties db) {[ "isApproved" := Plain (JBool true) ]}
              [("created_at", DESC)] = Ok (order_by [("created_at", DESC)]
                 (filter (Matches {[ "isApproved" := Plain (JBool true) ]})
                         (table_rows (Properties db))))) as E by done.
    apply (findAll_elem _ _ _ _ _ r) in E. apply E.
    rewrite table_rows_elem. split; [|done].
    unfold Matches. by rewrite map_Forall_singleton, holds_approved.
Qed.

(** A created property is on no approved listing until it is approved,
    and on the approved listing once it is. *)
Theorem created_property_is_listed_once_approved db now
    name description city price property_type bedrooms bathrooms living_rooms
    balconies parking_spaces square_meter user_id isForRent furnished year_built :
  keyed db → Property_outage db = None → takes_every_write db →
  is_null name = false → is_null user_id = false →
  (∀ k p, Properties db !! k = Some p → ¬ same_name_and_owner name user_id p) →
  ∃ row db1 row' db2,
    createProperty db now name description city price property_type bedrooms
      bathrooms living_rooms balconies parking_spaces square_meter user_id
      isForRent furnished year_built = (Ok row, db1)
    ∧ ¬ listed (getApprovedProperties db1) row
    ∧ (∀ isRent sortBy city' propertyType minPrice maxPrice minYear maxYear
         furnished' userId,
         ¬ listed (getPropertiesDynamic db1 isRent sortBy city' propertyType
                     minPrice maxPrice minYear maxYear furnished' userId)
                  (with_images db1 row))
    ∧ approveProperty db1 (JNum (next_property_id db)) = (Ok row', db2)
    ∧ listed (getApprovedProperties db2) row'
    ∧ ∀ col, col ≠ "isApproved" → get row' col = get row col.
Proof.
  intros Hkeyed Hup Hacc Hn Hu Hnone.
  rewrite createProperty_no_conflict by done.
  rewrite Property_create_accepted by done. cbv zeta.
  set (id := next_property_id db).
  set (row := <["property_id" := JNum id]> _).
  assert (get row "isApproved" = JBool false) as Hunapproved.
  { apply (get_created _ _ _ _ (JBool false) (JBool false)); [done|evaluate|evaluate]. }
  assert (get row "property_id" = JNum id) as Hid by apply get_insert_eq.
  clearbody row.
  set (db1 := with_tables db _ _ _).
  assert (keyed db1) as Hkeyed1.
  { subst db1. unfold keyed. cbn [with_tables Properties next_property_id].
    intros k p. destruct (decide (id = k)) as [<-|Hne].
    - rewrite lookup_insert_eq. intros [= <-]. rewrite Hid. split; [done|lia].
    - rewrite lookup_insert_ne by done. intros [? Hlt]%Hkeyed. split; [done|].
      fold id in Hlt. lia. }
  assert (Properties db1 !! id = Some row) as Hrow
    by (subst db1; cbn [with_tables Properties]; apply lookup_insert_eq).
  assert (takes_every_write db1) as Hacc1 by exact Hacc.
  destruct (approveProperty_idempotent db1 (JNum id) id row)
    as (row' & db2 & Happrove & Hrow' & Happroved & Hframe & _); try done.
  exists row, db1, row', db2. split; [done|]. split.
  { intros (_ & Ha & _)%getApprovedProperties_listed. congruence. }
  split.
  { intros * (_ & _ & (Ha & _) & _)%getPropertiesDynamic_listed.
    rewrite with_images_get in Ha by done. congruence. }
  split; [done|]. split; [|done].
  apply getApprovedProperties_listed.
  assert (same_settings db1 db2) as (Hsame & _).
  { replace db2 with (approveProperty db1 (JNum id)).2 by (by rewrite Happrove).
    unfold approveProperty.
    destruct (Property_findByPk db1 (JNum id)) as [[property|]|e];
      auto using write_back_settings with settings.
    apply write_back_settings. }
  split; [by rewrite Hsame|]. split; [done|by exists id].
Qed.

Lemma created_property_is_listed_once_approved_witness :
  ∃ row db1 row' db2,
    createProperty Sample.db 4000 (JStr "D") (JStr "garden") (JStr "Saida")
      (JNum 90000) (JStr "villa") (JNum 2) (JNum 1) Sample.U Sample.U Sample.U
      (JNum 80) (JNum 8) Sample.U (JBool true) Sample.U = (Ok row, db1)
    ∧ ¬ listed (getApprovedProperties db1) row
    ∧ (∀ isRent sortBy city' propertyType minPrice maxPrice minYear maxYear
         furnished' userId,
         ¬ listed (getPropertiesDynamic db1 isRent sortBy city' propertyType
                     minPrice maxPrice minYear maxYear furnished' userId)
                  (with_images db1 row))
    ∧ approveProperty db1 (JNum (next_property_id Sample.db)) = (Ok row', db2)
    ∧ listed (getApprovedProperties db2) row'
    ∧ ∀ col, col ≠ "isApproved" → get row' col = get row col.
Proof.
  apply (created_property_is_listed_once_approved Sample.db 4000 (JStr "D")).
  - decide_by_evaluation.
  - reflexivity.
  - intros old fields. reflexivity.
  - reflexivity.
  - reflexivity.
  - change (map_Forall (λ _ p, ¬ same_name_and_owner (JStr "D") (JNum 8) p)
                       (Properties Sample.db)).
    decide_by_evaluation.
Defined.

(** ** Listings *)

(** The listings that fetch rows and then attach the images. *)
Lemma fetch_with_images_listed db w order (handler : JsError → Result (list Row)) r :
  (∀ e, ∃ e', handler e = Throw e') →
  listed (try_catch (bind (Property_findAll db w order) (attachImagesToProperties db))
                    handler) r ↔
  Property_outage db = None ∧ PropertyImage_outage db = None
  ∧ ∃ k p, Properties db !! k = Some p ∧ Matches w p ∧ r = with_images db p.
Proof.
  intros Hhandler. unfold Property_findAll, findAll, listed.
  destruct (Property_outage db) as [e|]; simpl.
  { destruct (Hhandler e) as [e' ->]. split; [by intros (? & ? & _)|by intros [? _]]. }
  destruct (PropertyImage_outage db) as [e|] eqn:Hi.
  - rewrite (attachImagesToProperties_down _ _ _ Hi).
    split; [|by intros (_ & ? & _)].
    intros (rows & Hrows & Hr). exfalso. revert Hrows.
    destruct (order_by order _) as [|p ps]; simpl.
    + intros [= <-]. by apply elem_of_nil in Hr.
    + by destruct (Hhandler (Error ("Failed to retrieve images: " +:+ message e)))
        as [e' ->].
  - rewrite attachImagesToProperties_up by done. simpl. split.
    + intros (rows & [= <-] & Hr).
      apply list_elem_of_fmap in Hr as (p & -> & Hp).
      rewrite order_by_Permutation in Hp.
      apply list_elem_of_filter in Hp as [Hm [k Hk]%table_rows_elem].
      split; [done|]. split; [done|]. by exists k, p.
    + intros (_ & _ & k & p & Hk & Hm & ->).
      eexists. split; [done|]. apply list_elem_of_fmap. exists p. split; [done|].
      rewrite order_by_Permutation. apply list_elem_of_filter.
      split; [done|]. apply table_rows_elem. by exists k.
Qed.

Lemma fetch_with_images_sorted db w col (handler : JsError → Result (list Row)) rows :
  col ≠ "images" → (∀ e, ∃ e', handler e = Throw e') →
  try_catch (bind (Property_findAll db w [(col, DESC)]) (attachImagesToProperties db))
            handler = Ok rows →
  non_increasing col rows.
Proof.
  intros Hcol Hhandler. unfold Property_findAll, findAll.
  destruct (Property_outage db) as [e|]; simpl.
  { by destruct (Hhandler e) as [e' ->]. }
  match goal with |- context [attachImagesToProperties db ?ps] =>
    destruct (attachImagesToProperties db ps) as [rs|e] eqn:E end; simpl.
  - intros [= <-]. apply attachImagesToProperties_Ok in E as ->.
    apply with_images_non_increasing; [done|apply order_by_DESC].
  - by destruct (Hhandler e) as [e' ->].
Qed.

Lemma sql_eq_false_bool x : sql_eq x (JBool false) = true ↔ x = JBool false.
Proof.
  split; [|by intros ->].
  destruct x as [| |[]| |s| |]; simpl; try done.
  unfold sql_number. by destruct (Z_of_string s).
Qed.

(** [getNonApprovedProperties] lists exactly the stored properties whose
    [isApproved] is false, and [getPropertiesByUserId] exactly those of the
    user, approved or not; each with its images, newest first. *)
Theorem pending_and_owner_listings db :
  (∀ r, listed (getNonApprovedProperties db) r ↔
        Property_outage db = None ∧ PropertyImage_outage db = None
        ∧ ∃ k p, Properties db !! k = Some p ∧ get p "isApproved" = JBool false
                 ∧ r = with_images db p)
  ∧ (∀ user_id r,
       is_null user_id = false →
       listed (getPropertiesByUserId db user_id) r ↔
       Property_outage db = None ∧ PropertyImage_outage db = None
       ∧ ∃ k p, Properties db !! k = Some p
                ∧ sql_eq (get p "user_id") user_id = true
                ∧ r = with_images db p)
  ∧ (∀ rows, getNonApprovedProperties db = Ok rows → non_increasing "created_at" rows)
  ∧ (∀ user_id rows,
       getPropertiesByUserId db user_id = Ok rows → non_increasing "created_at" rows).
Proof.
  split; [|split; [|split]].
  - intros r. unfold getNonApprovedProperties.
    rewrite fetch_with_images_listed by (intros; by eexists).
    unfold Matches. setoid_rewrite map_Forall_singleton.
    cbn [holds]. by setoid_rewrite sql_eq_false_bool.
  - intros user_id r Hu. unfold getPropertiesByUserId.
    rewrite fetch_with_images_listed by (intros; by eexists).
    unfold Matches. setoid_rewrite map_Forall_singleton.
    assert (∀ x, holds (Plain user_id) x = sql_eq x user_id) as E
      by (intros; by apply holds_Plain).
    by setoid_rewrite E.
  - intros rows. unfold getNonApprovedProperties.
    apply fetch_with_images_sorted; [done|]. intros; by eexists.
  - intros user_id rows. unfold getPropertiesByUserId.
    apply fetch_with_images_sorted; [done|]. intros; by eexists.
Qed.

Lemma pending_and_owner_listings_witness :
  listed (getPropertiesByUserId Sample.db (JStr "8")) (with_images Sample.db Sample.C).
Proof.
  destruct (pending_and_owner_listings Sample.db) as (_ & Howner & _).
  apply (Howner (JStr "8")); [reflexivity|].
  split; [reflexivity|]. split; [reflexivity|].
  exists 3, Sample.C. split; [reflexivity|]. split; [evaluate|reflexivity].
Defined.

(** Every stored property whose [isApproved] is a boolean is on exactly one
    of the two listings, the approved or the pending one. *)
Theorem approved_or_pending db k p b :
  Property_outage db = None → PropertyImage_outage db = None →
  Properties db !! k = Some p → get p "isApproved" = JBool b →
  (listed (getApprovedProperties db) p ↔ b = true)
  ∧ (listed (getNonApprovedProperties db) (with_images db p) ↔ b = false).
Proof.
  intros Hup Hi Hk Hb.
  destruct (pending_and_owner_listings db) as (Hpending & _).
  rewrite getApprovedProperties_listed, Hpending, Hb. split.
  - split; [by intros (_ & [= ->] & _)|]. intros ->. eauto.
  - split.
    + intros (_ & _ & k' & p' & _ & Hb' & E).
      assert (get (with_images db p) "isApproved" = get (with_images db p') "isApproved")
        as E' by by rewrite E.
      rewrite !with_images_get in E' by done. congruence.
    + intros ->. split; [done|]. split; [done|]. by exists k, p.
Qed.

Lemma approved_or_pending_witness :
  (listed (getApprovedProperties Sample.db) Sample.C ↔ false = true)
  ∧ (listed (getNonApprovedProperties Sample.db) (with_images Sample.db Sample.C)
     ↔ false = false).
Proof.
  apply (approved_or_pending Sample.db 3 Sample.C false); reflexivity.
Defined.

Lemma findAll_listed outage t w order r :
  listed (findAll outage t w order) r ↔
  outage = None ∧ Matches w r ∧ ∃ k, t !! k = Some r.
Proof.
  unfold listed. split.
  - intros (rows & Hrows & Hr). pose proof Hrows as [-> _]%findAll_Ok.
    apply (findAll_elem _ _ _ _ _ r) in Hrows. apply Hrows in Hr as [? ?].
    by rewrite <- table_rows_elem.
  - intros (-> & Hm & Hk). eexists. split; [done|].
    rewrite order_by_Permutation. apply list_elem_of_filter.
    by rewrite table_rows_elem.
Qed.

Lemma try_catch_listed (body : Result (list Row)) handler r :
  (∀ e, ∃ e', handler e = Throw e') →
  listed (try_catch body handler) r ↔ listed body r.
Proof.
  intros Hhandler. destruct body as [rows|e]; simpl; [done|].
  destruct (Hhandler e) as [e' ->]. unfold listed.
  split; by intros (? & ? & _).
Qed.

(** The listings by type and by location do not look at the approval: they
    list unapproved properties too.  The listing by location is the
    listing by type narrowed to the city.  Both come newest first. *)
Theorem type_and_location_listings db propertyType city :
  is_null propertyType = false → is_null city = false →
  (∀ r, listed (getPropertiesByType db propertyType) r ↔
        Property_outage db = None
        ∧ sql_eq (get r "property_type") propertyType = true
        ∧ ∃ k, Properties db !! k = Some r)
  ∧ (∀ r, listed (getPropertiesByLocation db propertyType city) r ↔
          listed (getPropertiesByType db propertyType) r
          ∧ sql_eq (get r "city") city = true)
  ∧ (∀ rows, getPropertiesByType db propertyType = Ok rows →
             non_increasing "created_at" rows)
  ∧ (∀ rows, getPropertiesByLocation db propertyType city = Ok rows →
             non_increasing "created_at" rows).
Proof.
  intros Ht Hc.
  assert (∀ r, listed (getPropertiesByType db propertyType) r ↔
        Property_outage db = None
        ∧ sql_eq (get r "property_type") propertyType = true
        ∧ ∃ k, Properties db !! k = Some r) as Htype.
  { intros r. unfold getPropertiesByType, Property_findAll.
    rewrite findAll_listed. unfold Matches.
    by rewrite map_Forall_singleton, holds_Plain. }
  split; [done|]. split; [|split].
  - intros r. rewrite Htype. unfold getPropertiesByLocation, Property_findAll.
    rewrite try_catch_listed by (intros; by eexists).
    rewrite findAll_listed. unfold Matches.
    rewrite map_Forall_insert, map_Forall_singleton, !holds_Plain by done.
    tauto.
  - intros rows [_ ->]%findAll_Ok. apply order_by_DESC.
  - intros rows. unfold getPropertiesByLocation, Property_findAll.
    match goal with |- context [findAll ?o ?t ?w ?ord] =>
      destruct (findAll o t w ord) as [rs|e] eqn:E end; simpl; [|done].
    intros [= <-]. apply findAll_Ok in E as [_ ->]. apply order_by_DESC.
Qed.

Lemma type_and_location_listings_witness :
  listed (getPropertiesByLocation Sample.db (JStr "villa") (JStr "Tripoli")) Sample.C.
Proof.
  destruct (type_and_location_listings Sample.db (JStr "villa") (JStr "Tripoli")
              eq_refl eq_refl) as (Htype & Hlocation & _).
  apply Hlocation. split; [|evaluate].
  apply Htype. split; [reflexivity|]. split; [evaluate|]. by exists 3.
Defined.

(** [sortBy] decides the order of the result and nothing else: the same
    call under another [sortBy] answers when this one does, with the same
    rows. *)
Theorem sortBy_only_reorders db
    isRent sortBy sortBy' city propertyType minPrice maxPrice minYear maxYear
    furnished userId rows :
  getPropertiesDynamic db isRent sortBy city propertyType minPrice maxPrice
    minYear maxYear furnished userId = Ok rows →
  ∃ rows',
    getPropertiesDynamic db isRent sortBy' city propertyType minPrice maxPrice
      minYear maxYear furnished userId = Ok rows'
    ∧ rows' ≡ₚ rows.
Proof.
  unfold getPropertiesDynamic. cbv zeta. unfold Property_findAll, findAll.
  destruct (Property_outage db); simpl; [done|].
  destruct (PropertyImage_outage db) as [e|] eqn:Hi.
  - rewrite !(attachImagesToProperties_down _ _ _ Hi).
    match goal with |- context [order_by (buildOrder sortBy) ?l0] => set (l := l0) end.
    assert (∀ order, order_by order l = [] ↔ l = []) as Hnil.
    { intros order. split; intros H; apply Permutation_nil_r.
      - by rewrite <- (order_by_Permutation order l), H.
      - by rewrite order_by_Permutation, H. }
    destruct (order_by (buildOrder sortBy) l) as [|p ps] eqn:E1; simpl; [|done].
    intros [= <-]. apply Hnil in E1. exists []. split; [|done].
    assert (order_by (buildOrder sortBy') l = []) as -> by by apply Hnil.
    done.
  - rewrite !attachImagesToProperties_up by done. simpl. intros [= <-].
    eexists. split; [done|]. apply fmap_Permutation.
    by rewrite !order_by_Permutation.
Qed.

Lemma sortBy_only_reorders_witness :
  ∃ rows',
    getPropertiesDynamic Sample.db JNull (JStr "price_asc") JNull JNull JNull
      JNull JNull JNull JNull JNull = Ok rows'
    ∧ rows' ≡ₚ [with_images Sample.db Sample.B; with_images Sample.db Sample.A].
Proof.
  apply (sortBy_only_reorders Sample.db JNull (JStr "price_desc")).
  evaluate.
Defined.

(** ** Arguments left out *)

(** An argument left out ([undefined]) is an argument given as [null]; an
    empty [city] or [propertyType] filters nothing; but [isRent = false] is
    a filter: it keeps the properties that are not for rent. *)
Theorem absent_filters db isRent sortBy minPrice maxPrice minYear maxYear furnished
    userId :
  getPropertiesDynamic db JUndefined sortBy JUndefined JUndefined JUndefined
    JUndefined JUndefined JUndefined JUndefined JUndefined
  = getPropertiesDynamic db JNull sortBy JNull JNull JNull JNull JNull JNull JNull
      JNull
  ∧ getPropertiesDynamic db isRent sortBy (JStr "") (JStr "") minPrice maxPrice
      minYear maxYear furnished userId
    = getPropertiesDynamic db isRent sortBy JNull JNull minPrice maxPrice minYear
        maxYear furnished userId
  ∧ ∀ city propertyType r,
      listed (getPropertiesDynamic db (JBool false) sortBy city propertyType
                minPrice maxPrice minYear maxYear furnished userId) r →
      get r "isForRent" = JBool false.
Proof.
  split; [done|]. split; [done|].
  intros city propertyType r (_ & _ & (_ & Hrent & _) & _)%getPropertiesDynamic_listed.
  by apply sql_eq_false_bool, Hrent.
Qed.

(** ** The excluded user *)

(** With [userId] given, a property is listed exactly when it is listed
    without it and its [user_id] is set and differs. *)
Theorem userId_excludes_the_user db
    isRent sortBy city propertyType minPrice maxPrice minYear maxYear furnished
    userId r :
  is_null userId = false → is_undefined userId = false →
  listed (getPropertiesDynamic db isRent sortBy city propertyType minPrice maxPrice
            minYear maxYear furnished userId) r ↔
  listed (getPropertiesDynamic db isRent sortBy city propertyType minPrice maxPrice
            minYear maxYear furnished JNull) r
  ∧ sql_is_null (get r "user_id") = false
  ∧ sql_eq (get r "user_id") userId = false.
Proof.
  intros Hn Hu. rewrite !getPropertiesDynamic_listed.
  assert (default_param JNull userId = userId) as -> by by destruct userId.
  cbn [default_param]. unfold passes. rewrite Hn. cbn [is_null].
  intuition discriminate.
Qed.

Lemma userId_excludes_the_user_witness :
  listed (getPropertiesDynamic Sample.db JNull JNull JNull JNull JNull JNull JNull
            JNull JNull (JNum 8)) (with_images Sample.db Sample.A).
Proof.
  apply (userId_excludes_the_user Sample.db JNull JNull JNull JNull JNull JNull
           JNull JNull JNull (JNum 8)); [reflexivity|reflexivity|].
  split; [|split; evaluate].
  exists [with_images Sample.db Sample.B; with_images Sample.db Sample.A].
  split; [evaluate|]. right. left.
Defined.

(** ** When the image table cannot be read *)

Lemma order_by_nil order (l : list Row) : order_by order l = [] ↔ l = [].
Proof.
  split; intros H; apply Permutation_nil_r.
  - by rewrite <- (order_by_Permutation order l), H.
  - by rewrite order_by_Permutation, H.
Qed.

(** The image service reports the store's message behind its own prefix;
    [getPropertiesDynamic] then fails with its own fixed message as soon
    as one stored property passes the filters, and still answers the empty
    list when none does. *)
Theorem image_failure db e
    isRent sortBy city propertyType minPrice maxPrice minYear maxYear furnished
    userId :
  Property_outage db = None → PropertyImage_outage db = Some e →
  let matching p :=
    passes (default_param JNull isRent) (default_param JNull city)
      (default_param JNull propertyType) (default_param JNull minPrice)
      (default_param JNull maxPrice) (default_param JNull minYear)
      (default_param JNull maxYear) (default_param JNull furnished)
      (default_param JNull userId) p in
  (∀ propertyId,
     getImagesByProperty db propertyId =
       Throw (Error ("Failed to retrieve images: " +:+ message e)))
  ∧ ((∃ k p, Properties db !! k = Some p ∧ matching p) →
     getPropertiesDynamic db isRent sortBy city propertyType minPrice maxPrice
       minYear maxYear furnished userId = Throw (Error "Error fetching properties"))
  ∧ ((∀ k p, Properties db !! k = Some p → ¬ matching p) →
     getPropertiesDynamic db isRent sortBy city propertyType minPrice maxPrice
       minYear maxYear furnished userId = Ok []).
Proof.
  intros Hup Hi matching. split; [|split].
  - intros pid. unfold getImagesByProperty, PropertyImage_findAll, findAll.
    by rewrite Hi.
  - intros (k & p & Hk & Hp).
    unfold getPropertiesDynamic. cbv zeta. unfold Property_findAll, findAll.
    rewrite Hup. simpl. rewrite (attachImagesToProperties_down _ _ _ Hi).
    match goal with |- context [order_by ?o ?l0] =>
      destruct (order_by o l0) as [|p' ps] eqn:E end; [|done].
    apply order_by_nil in E.
    assert (p ∈ @nil Row) as Hin; [|by apply elem_of_nil in Hin].
    rewrite <- E. apply list_elem_of_filter. split.
    + by apply whereCondition_passes.
    + apply table_rows_elem. by exists k.
  - intros Hnone.
    unfold getPropertiesDynamic. cbv zeta. unfold Property_findAll, findAll.
    rewrite Hup. simpl. rewrite (attachImagesToProperties_down _ _ _ Hi).
    match goal with |- context [order_by ?o ?l0] =>
      assert (order_by o l0 = []) as ->; [|done] end.
    apply order_by_nil, filter_none, Forall_forall.
    intros p [k Hk]%table_rows_elem Hm. apply (Hnone k p Hk).
    by apply whereCondition_passes.
Qed.

Lemma image_failure_witness :
  getPropertiesDynamic
    (mkDb (Properties Sample.db) (PropertyImages Sample.db) 4 None
          (Some (Error "read ETIMEDOUT")) Sample.lenient Sample.refusal)
    JNull JNull (JStr "Beirut") JNull JNull JNull JNull JNull JNull JNull
  = Throw (Error "Error fetching properties").
Proof.
  apply (image_failure
           (mkDb (Properties Sample.db) (PropertyImages Sample.db) 4 None
                 (Some (Error "read ETIMEDOUT")) Sample.lenient Sample.refusal)
           (Error "read ETIMEDOUT")); [reflexivity|reflexivity|].
  exists 1, Sample.A. split; [reflexivity|].
  apply whereCondition_passes. decide_by_evaluation.
Defined.

(** ** The composer *)

Lemma composer_on_instances db rows :
  propertyBuilder.attachImagesToProperties db (Instance <$> rows) =
  attachImagesToProperties db rows.
Proof.
  unfold propertyBuilder.attachImagesToProperties, attachImagesToProperties.
  induction rows as [|p ps IH]; [done|].
  cbn [fmap list_fmap promise_all member toJSON]. rewrite <- IH.
  by destruct (getImagesByProperty db (get p "property_id")).
Qed.

(** On the model instances it is handed, the composer keeps the number of
    rows and changes no field but [images].  What it returns are plain
    objects: handed its own output, it reads the images of the first and
    then fails on [toJSON], which a plain object does not have; only the
    empty list goes through again. *)
Theorem composer_takes_instances_only db properties rows :
  propertyBuilder.attachImagesToProperties db (Instance <$> properties) = Ok rows →
  length rows = length properties
  ∧ Forall2 (λ p row, ∀ col, col ≠ "images" → get row col = get p col)
            properties rows
  ∧ propertyBuilder.attachImagesToProperties db (PlainObject <$> rows) =
      match rows with
      | [] => Ok []
      | _ => Throw (Error "property.toJSON is not a function")
      end.
Proof.
  rewrite composer_on_instances. intros H.
  pose proof (attachImagesToProperties_Ok _ _ _ H) as ->.
  split; [apply length_fmap|]. split.
  - apply Forall2_fmap_r, Forall_Forall2_diag, Forall_forall.
    intros p _ col Hcol. by apply with_images_get.
  - destruct properties as [|p ps]; [done|].
    destruct (PropertyImage_outage db) as [e|] eqn:Hi.
    { rewrite (attachImagesToProperties_down _ _ _ Hi) in H. discriminate. }
    unfold propertyBuilder.attachImagesToProperties.
    cbn [fmap list_fmap promise_all member toJSON].
    by rewrite getImagesByProperty_up.
Qed.

Lemma composer_takes_instances_only_witness :
  length [with_images Sample.db Sample.C; with_images Sample.db Sample.A]
  = length [Sample.C; Sample.A]
  ∧ Forall2 (λ p row, ∀ col, col ≠ "images" → get row col = get p col)
            [Sample.C; Sample.A]
            [with_images Sample.db Sample.C; with_images Sample.db Sample.A]
  ∧ propertyBuilder.attachImagesToProperties Sample.db
      (PlainObject <$> [with_images Sample.db Sample.C; with_images Sample.db Sample.A])
    = Throw (Error "property.toJSON is not a function").
Proof.
  apply (composer_takes_instances_only Sample.db [Sample.C; Sample.A]).
  evaluate.
Defined.

(** ** The order array *)

(** [buildOrder] gives at most one term, on [price], [created_at] or
    [year_built]; it gives none exactly when [sortBy] is not one of the six
    keys, spelled exactly. *)
Theorem buildOrder_shape sortBy :
  (buildOrder sortBy = [] ↔ ∀ k, k ∈ sort_keys → sortBy ≠ JStr k)
  ∧ (length (buildOrder sortBy) ≤ 1)%nat
  ∧ (∀ t, t ∈ buildOrder sortBy → t.1 ∈ ["price"; "created_at"; "year_built"])
  ∧ buildOrder (JStr "PRICE_ASC") = [].
Proof.
  split; [|split; [|split]].
  - split; [|apply buildOrder_unknown].
    intros H k Hk ->. unfold sort_keys in Hk.
    repeat (apply elem_of_cons in Hk as [->|Hk]; [discriminate|]).
    by apply elem_of_nil in Hk.
  - unfold buildOrder.
    repeat match goal with |- context [if ?b then _ else _] => destruct b end;
      simpl; lia.
  - intros t. unfold buildOrder.
    repeat match goal with |- context [if ?b then _ else _] => destruct b end;
      intros Ht; try (by apply elem_of_nil in Ht);
      apply list_elem_of_singleton in Ht as ->; simpl; set_solver.
  - reflexivity.
Qed.

(** ** The table invariant *)

Lemma Property_create_keyed db now values :
  keyed db →
  keyed (Property_create db now values).2
  ∧ next_property_id db ≤ next_property_id (Property_create db now values).2.
Proof.
  intros Hkeyed. unfold Property_create.
  destruct (Property_outage db); [by split|].
  match goal with |- context [accepts db None ?row] =>
    destruct (accepts db None row); [|by split] end.
  unfold keyed. cbn [snd with_tables Properties next_property_id].
  split; [|lia].
  intros k r. destruct (decide (next_property_id db = k)) as [<-|Hne].
  - rewrite lookup_insert_eq. intros [= <-]. rewrite get_insert_eq.
    split; [done|lia].
  - rewrite lookup_insert_ne by done. intros [? ?]%Hkeyed. split; [done|lia].
Qed.

Lemma instance_destroy_keyed db inst :
  keyed db →
  keyed (instance_destroy db inst).2
  ∧ next_property_id db ≤ next_property_id (instance_destroy db inst).2.
Proof.
  intros Hkeyed. unfold instance_destroy.
  destruct (Property_outage db); [by split|].
  destruct (as_key (get inst "property_id")) as [k0|]; [|by split].
  unfold keyed. cbn [snd with_tables Properties next_property_id].
  split; [|done]. intros k r [_ Hr]%lookup_delete_Some. by apply Hkeyed.
Qed.

Lemma run_keyed db call :
  keyed db →
  keyed (run db call).2 ∧ next_property_id db ≤ next_property_id (run db call).2.
Proof.
  intros Hkeyed.
  assert (∀ property_id name description city price property_type bedrooms
            bathrooms living_rooms balconies parking_spaces furnished year_built,
            keyed (updateProperty db property_id name description city price
                     property_type bedrooms bathrooms living_rooms balconies
                     parking_spaces furnished year_built).2
            ∧ next_property_id db ≤
              next_property_id
                (updateProperty db property_id name description city price
                   property_type bedrooms bathrooms living_rooms balconies
                   parking_spaces furnished year_built).2) as Hupdate.
  { intros. edestruct updateProperty_keyed as [? ->]; [done|]. by split. }
  destruct call; cbn [run]; try by split.
  - match goal with |- keyed (let (_, _) := ?c in _).2 ∧ _ =>
      assert (keyed c.2 ∧ next_property_id db ≤ next_property_id c.2) as H;
      [|by destruct c] end.
    unfold createProperty.
    match goal with |- context [Property_findOne db ?w] =>
      destruct (Property_findOne db w) as [[?|]|?] end; [by split| |by split].
    by apply Property_create_keyed.
  - match goal with |- keyed (let (_, _) := ?c in _).2 ∧ _ =>
      assert (keyed c.2 ∧ next_property_id db ≤ next_property_id c.2) as H;
      [|by destruct c] end.
    apply Hupdate.
  - pose proof (Controller_updateProperty_store db req) as E.
    destruct (Controller.updateProperty db req) as [res db']. simpl in E. subst db'.
    apply Hupdate.
  - match goal with |- keyed (let (_, _) := ?c in _).2 ∧ _ =>
      assert (keyed c.2 ∧ next_property_id db ≤ next_property_id c.2) as H;
      [|by destruct c] end.
    unfold deleteProperty.
    destruct (Property_findByPk db property_id) as [[property|]|e]; [|by split..].
    by apply instance_destroy_keyed.
  - match goal with |- keyed (let (_, _) := ?c in _).2 ∧ _ =>
      assert (keyed c.2 ∧ next_property_id db ≤ next_property_id c.2) as H;
      [|by destruct c] end.
    unfold approveProperty.
    destruct (Property_findByPk db property_id) as [[property|]|e] eqn:E;
      [|by split..].
    apply findByPk_Some in E as (_ & k0 & _ & Hk0). unfold instance_set_save.
    edestruct (write_back_keyed db property) as [? ->]; [done..|by split].
Qed.

(** Whatever calls are made, every row stays under the key its
    [property_id] names, the counter stays beyond every key and never goes
    back, and the images are touched by deletions only: no call adds one. *)
Theorem calls_keep_the_table_keyed db calls :
  keyed db →
  keyed (run_all db calls)
  ∧ next_property_id db ≤ next_property_id (run_all db calls)
  ∧ PropertyImages (run_all db calls) ⊆ PropertyImages db.
Proof.
  revert db. induction calls as [|call rest IH]; intros db Hkeyed; simpl; [done|].
  destruct (run_keyed db call Hkeyed) as [Hkeyed' Hnext].
  destruct (IH _ Hkeyed') as (? & ? & Himages).
  split; [done|]. split; [lia|].
  etrans; [exact Himages|]. clear.
  assert (∀ property_id name description city price property_type bedrooms
            bathrooms living_rooms balconies parking_spaces furnished year_built,
            PropertyImages
              (updateProperty db property_id name description city price
                 property_type bedrooms bathrooms living_rooms balconies
                 parking_spaces furnished year_built).2 = PropertyImages db)
    as Hupdate.
  { intros. unfold updateProperty.
    destruct (Property_findByPk db property_id) as [[property|]|e]; [|done..].
    unfold instance_update, write_back. destruct (Property_outage db); [done|].
    match goal with |- context [accepts db ?i ?f] => destruct (accepts db i f) end;
      [|done].
    by destruct (as_key (get property "property_id")). }
  destruct call; cbn [run]; try done.
  - match goal with |- PropertyImages (let (_, _) := ?c in _).2 ⊆ _ =>
      assert (PropertyImages c.2 = PropertyImages db) as H;
      [|by destruct c; simpl in *; rewrite H] end.
    unfold createProperty.
    match goal with |- context [Property_findOne db ?w] =>
      destruct (Property_findOne db w) as [[?|]|?] end; [done| |done].
    unfold Property_create. destruct (Property_outage db); [done|].
    match goal with |- context [accepts db None ?row] =>
      by destruct (accepts db None row) end.
  - match goal with |- PropertyImages (let (_, _) := ?c in _).2 ⊆ _ =>
      assert (PropertyImages c.2 = PropertyImages db) as H;
      [|by destruct c; simpl in *; rewrite H] end.
    apply Hupdate.
  - pose proof (Controller_updateProperty_store db req) as E.
    destruct (Controller.updateProperty db req) as [res db']. simpl in E. subst db'.
    cbn [snd]. by rewrite Hupdate.
  - match goal with |- PropertyImages (let (_, _) := ?c in _).2 ⊆ _ =>
      assert (PropertyImages c.2 ⊆ PropertyImages db) as H;
      [|by destruct c] end.
    unfold deleteProperty.
    destruct (Property_findByPk db property_id) as [[property|]|e]; [|done..].
    unfold instance_destroy. destruct (Property_outage db); [done|].
    destruct (as_key (get property "property_id")) as [k0|]; [|done].
    cbn [snd with_tables PropertyImages]. apply map_filter_subseteq.
  - match goal with |- PropertyImages (let (_, _) := ?c in _).2 ⊆ _ =>
      assert (PropertyImages c.2 = PropertyImages db) as H;
      [|by destruct c; simpl in *; rewrite H] end.
    unfold approveProperty.
    destruct (Property_findByPk db property_id) as [[property|]|e]; [|done..].
    unfold instance_set_save, write_back. destruct (Property_outage db); [done|].
    match goal with |- context [accepts db ?i ?f] => destruct (accepts db i f) end;
      [|done].
    by destruct (as_key (get property "property_id")).
Qed.

Lemma calls_keep_the_table_keyed_witness :
  keyed (run_all Sample.db
           [DeleteProperty (JNum 1);
            CreateProperty 5000 (JStr "A") (JStr "again") (JStr "Beirut") (JNum 1)
              (JStr "villa") (JNum 1) (JNum 1) Sample.U Sample.U Sample.U (JNum 50)
              (JNum 7) (JBool false) (JBool false) (JNum 2020)]).
Proof.
  apply (calls_keep_the_table_keyed Sample.db).
  decide_by_evaluation.
Defined.

(** ** When the property table cannot be read *)

(** The operations on one property, and the listings without a [catch],
    hand the store's error to the caller as it is, and write nothing. *)
Theorem store_error_reaches_the_caller db e :
  Property_outage db = Some e →
  (∀ now name description city price property_type bedrooms bathrooms
     living_rooms balconies parking_spaces square_meter user_id isForRent
     furnished year_built,
     createProperty db now name description city price property_type bedrooms
       bathrooms living_rooms balconies parking_spaces square_meter user_id
       isForRent furnished year_built = (Throw e, db))
  ∧ (∀ property_id name description city price property_type bedrooms bathrooms
       living_rooms balconies parking_spaces furnished year_built,
       updateProperty db property_id name description city price property_type
         bedrooms bathrooms living_rooms balconies parking_spaces furnished
         year_built = (Throw e, db))
  ∧ (∀ property_id, deleteProperty db property_id = (Throw e, db))
  ∧ (∀ property_id, approveProperty db property_id = (Throw e, db))
  ∧ (∀ property_id, getPropertyById db property_id = Throw e)
  ∧ getApprovedProperties db = Throw e
  ∧ (∀ propertyType, getPropertiesByType db propertyType = Throw e)
  ∧ (∀ propertyType city,
       getPropertiesByLocation db propertyType city =
         Throw (Error "Error fetching properties by location")).
Proof.
  intros Hdown.
  repeat split; intros;
    unfold createProperty, updateProperty, deleteProperty, approveProperty,
      getPropertyById, getApprovedProperties, getPropertiesByType,
      getPropertiesByLocation, Property_findOne, findOne, Property_findByPk,
      findByPk, Property_findAll, findAll;
    by rewrite Hdown.
Qed.

Lemma store_error_reaches_the_caller_witness :
  getApprovedProperties Sample.db_down =
    Throw (Error "connect ECONNREFUSED 127.0.0.1:3306").
Proof.
  apply (store_error_reaches_the_caller Sample.db_down
           (Error "connect ECONNREFUSED 127.0.0.1:3306")).
  reflexivity.
Defined.

(** ** Deleting an image *)

(** [deleteImage] removes the image it finds and touches nothing else.
    When there is none it fails, and the message of the error thrown for
    that inside the [try] comes back behind the prefix of the [catch], as
    a failure of the store does. *)
Theorem deleteImage_removes_one_image db imageId :
  images_keyed db →
  (∀ k img,
     PropertyImage_outage db = None →
     as_key imageId = Some k → PropertyImages db !! k = Some img →
     ∃ db',
       deleteImage db imageId = (Ok (), db')
       ∧ PropertyImages db' = delete k (PropertyImages db)
       ∧ Properties db' = Properties db)
  ∧ (PropertyImage_outage db = None →
     (∀ k, as_key imageId = Some k → PropertyImages db !! k = None) →
     deleteImage db imageId =
       (Throw (Error "Failed to delete image: Image not found"), db))
  ∧ (∀ e, PropertyImage_outage db = Some e →
          deleteImage db imageId =
            (Throw (Error ("Failed to delete image: " +:+ message e)), db)).
Proof.
  intros Hkeyed. unfold deleteImage, PropertyImage_findByPk, findByPk.
  split; [|split].
  - intros k img Hup Hpk Himg. rewrite Hup, Hpk. simpl. rewrite Himg.
    unfold image_destroy. rewrite Hup, (Hkeyed _ _ Himg). simpl.
    by eexists.
  - intros Hup Hnone. rewrite Hup.
    assert ((as_key imageId ≫= λ k, PropertyImages db !! k) = None) as ->; [|done].
    destruct (as_key imageId) as [k|]; [|done]. by apply Hnone.
  - intros e Hdown. by rewrite Hdown.
Qed.

Lemma deleteImage_removes_one_image_witness :
  (∃ db',
     deleteImage Sample.db (JStr "5") = (Ok (), db')
     ∧ PropertyImages db' = delete 5 (PropertyImages Sample.db)
     ∧ Properties db' = Properties Sample.db)
  ∧ deleteImage Sample.db (JNum 9) =
      (Throw (Error "Failed to delete image: Image not found"), Sample.db).
Proof.
  destruct (deleteImage_removes_one_image Sample.db (JStr "5"))
    as (Hfound & _); [decide_by_evaluation|].
  destruct (deleteImage_removes_one_image Sample.db (JNum 9))
    as (_ & Hmissing & _); [decide_by_evaluation|].
  split.
  - apply (Hfound 5 (Sample.image 5 1 "a-2.jpg")); [reflexivity|evaluate|reflexivity].
  - apply Hmissing; [reflexivity|]. intros k [= <-]. evaluate.
Defined.

(** * Properties of the controller *)

(** ** Approval needs an administrator *)

(** The handler lets the service approve only for a stored user whose
    [isAdmin] is truthy.  For anyone else, found or not, it answers 403
    and the store stays as it was; for an administrator and a stored
    property it answers 200 and the property is approved. *)
Theorem approveProperty_needs_an_administrator users db req :
  User_outage users = None →
  let admin :=
    ∃ u user, as_key (get (body req) "user_id") = Some u
              ∧ User_rows users !! u = Some user
              ∧ truthy (get user "isAdmin") = true in
  (¬ admin →
   PropertyController.approveProperty users db req =
     (mkReply 403 (Message "User is not authorized to approve properties"), db))
  ∧ ((PropertyController.approveProperty users db req).2 ≠ db → admin)
  ∧ (admin → keyed db → Property_outage db = None → takes_every_write db →
     ∀ k r, as_key (get (params req) "property_id") = Some k →
            Properties db !! k = Some r →
            code (PropertyController.approveProperty users db req).1 = 200
            ∧ approved (PropertyController.approveProperty users db req).2 k).
Proof.
  intros Husers admin.
  assert (¬ admin →
   PropertyController.approveProperty users db req =
     (mkReply 403 (Message "User is not authorized to approve properties"), db))
    as Hforbidden.
  { intros Hnot. unfold PropertyController.approveProperty. cbv zeta.
    unfold User_findByPk, findByPk. rewrite Husers.
    destruct (as_key (get (body req) "user_id")) as [u|] eqn:Hu; [|done]. simpl.
    destruct (User_rows users !! u) as [user|] eqn:Huser; [|done].
    destruct (truthy (get user "isAdmin")) eqn:Hadmin; [|done].
    destruct Hnot. by exists u, user. }
  split; [done|]. split.
  - intros Hchanged.
    assert (admin ∨ ¬ admin) as [|Hnot]; [|done|by rewrite Hforbidden in Hchanged].
    subst admin.
    destruct (as_key (get (body req) "user_id")) as [u|] eqn:Hu;
      [|right; by intros (? & ? & ? & _)].
    destruct (User_rows users !! u) as [user|] eqn:Huser;
      [|right; intros (? & ? & [= <-] & ? & _); congruence].
    destruct (truthy (get user "isAdmin")) eqn:Hadmin.
    + left. by exists u, user.
    + right. intros (? & ? & [= <-] & ? & ?). congruence.
  - intros (u & user & Hu & Huser & Hadmin) Hkeyed Hup Hacc k r Hpk Hr.
    unfold PropertyController.approveProperty. cbv zeta.
    unfold User_findByPk, findByPk. rewrite Husers, Hu. simpl.
    rewrite Huser, Hadmin. simpl.
    rewrite (approveProperty_found _ _ _ _ Hkeyed Hup Hacc Hpk Hr).
    split; [done|]. unfold approved.
    cbn [snd with_Properties with_tables Properties].
    rewrite lookup_insert_eq. eexists. split; [done|].
    apply get_union_l, lookup_singleton_eq.
Qed.

Lemma approveProperty_needs_an_administrator_witness :
  PropertyController.approveProperty People.users Sample.db
    (mkReq (obj [("property_id", JStr "3")]) (obj [("user_id", JNum 7)]))
  = (mkReply 403 (Message "User is not authorized to approve properties"), Sample.db)
  ∧ approved
      (PropertyController.approveProperty People.users Sample.db
         (mkReq (obj [("property_id", JStr "3")]) (obj [("user_id", JNum 1)]))).2 3.
Proof.
  split.
  - apply (approveProperty_needs_an_administrator People.users Sample.db);
      [reflexivity|].
    intros (u & user & Hu & Huser & Hadmin).
    assert (as_key (get (obj [("user_id", JNum 7)]) "user_id") = Some 7) as E
      by evaluate.
    cbn [body] in Hu. rewrite E in Hu. injection Hu as <-.
    assert (User_rows People.users !! 7 = Some People.Omar) as E' by evaluate.
    rewrite E' in Huser. injection Huser as <-.
    assert (truthy (get People.Omar "isAdmin") = false) as E'' by evaluate.
    congruence.
  - destruct (approveProperty_needs_an_administrator People.users Sample.db
                (mkReq (obj [("property_id", JStr "3")]) (obj [("user_id", JNum 1)]))
                eq_refl) as (_ & _ & Happroves).
    apply (Happroves) with (r := Sample.C).
    + exists 1, People.Ada. split; [evaluate|]. split; evaluate.
    + decide_by_evaluation.
    + reflexivity.
    + intros old fields. reflexivity.
    + evaluate.
    + reflexivity.
Defined.

(** ** The lookup answers 200 or 404 *)

(** The handler answers 200 with the property when it is stored, and 404
    when it is not; and 404 as well when the table cannot be read, with
    the store's message as the detail. *)
Theorem getPropertyById_reply db req :
  (∀ k p,
     Property_outage db = None →
     as_key (get (params req) "property_id") = Some k →
     Properties db !! k = Some p →
     PropertyController.getPropertyById db req = mkReply 200 (PropertyOnly p))
  ∧ (Property_outage db = None →
     (∀ k, as_key (get (params req) "property_id") = Some k →
           Properties db !! k = None) →
     PropertyController.getPropertyById db req =
       mkReply 404 (MessageError "Property not found" "Property not found"))
  ∧ (∀ e, Property_outage db = Some e →
          PropertyController.getPropertyById db req =
            mkReply 404 (MessageError "Property not found" (message e))).
Proof.
  unfold PropertyController.getPropertyById, getPropertyById, Property_findByPk,
    findByPk. cbv zeta. split; [|split].
  - intros k p Hup Hpk Hp. rewrite Hup, Hpk. simpl. by rewrite Hp.
  - intros Hup Hnone. rewrite Hup.
    destruct (as_key (get (params req) "property_id")) as [k|]; [|done]. simpl.
    by rewrite Hnone.
  - intros e Hdown. by rewrite Hdown.
Qed.

Example getPropertyById_sample_replies :
  PropertyController.getPropertyById Sample.db (mkReq (obj [("property_id", JStr "2")]) ∅)
  = mkReply 200 (PropertyOnly Sample.B)
  ∧ PropertyController.getPropertyById Sample.db (mkReq (obj [("property_id", JStr "9")]) ∅)
    = mkReply 404 (MessageError "Property not found" "Property not found")
  ∧ PropertyController.getPropertyById Sample.db_down
      (mkReq (obj [("property_id", JStr "2")]) ∅)
    = mkReply 404 (MessageError "Property not found"
                                "connect ECONNREFUSED 127.0.0.1:3306").
Proof. repeat split; evaluate. Qed.

(** ** Creation needs a user *)

Lemma default_param_defined d v : is_undefined v = false → default_param d v = v.
Proof. by destruct v. Qed.

(** The handler creates nothing for a user it does not find (404).  For a
    user it finds, a new name and a store that takes the write, it answers
    201, and the stored row carries the [year_built] and the [furnished] of
    the request, each in its own column. *)
Theorem createProperty_needs_a_user users db now req :
  User_outage users = None →
  ((∀ u, as_key (get (body req) "user_id") = Some u → User_rows users !! u = None) →
   PropertyController.createProperty users db now req =
     (mkReply 404 (Message "User not found"), db))
  ∧ (∀ u user,
       as_key (get (body req) "user_id") = Some u → User_rows users !! u = Some user →
       Property_outage db = None → takes_every_write db →
       is_null (get (body req) "name") = false →
       (∀ k p, Properties db !! k = Some p →
               ¬ same_name_and_owner (get (body req) "name")
                   (get (body req) "user_id") p) →
       is_undefined (get (body req) "year_built") = false →
       is_undefined (get (body req) "furnished") = false →
       ∃ row,
         (PropertyController.createProperty users db now req).1 =
           mkReply 201 (MessageProperty "Property created successfully" row)
         ∧ Properties (PropertyController.createProperty users db now req).2
             !! next_property_id db = Some row
         ∧ get row "year_built" = get (body req) "year_built"
         ∧ get row "furnished" = get (body req) "furnished").
Proof.
  intros Husers. unfold PropertyController.createProperty. cbv zeta.
  unfold User_findByPk, findByPk. rewrite Husers. split.
  - intros Hnone.
    destruct (as_key (get (body req) "user_id")) as [u|]; [|done]. simpl.
    by rewrite Hnone.
  - intros u user Hu Huser Hup Hacc Hname Hnew Hyear Hfurnished.
    rewrite Hu. simpl. rewrite Huser.
    assert (is_null (get (body req) "user_id") = false) as Huid
      by (by destruct (get (body req) "user_id")).
    rewrite createProperty_no_conflict by done.
    match goal with |- context [Property_create db now ?vals] => set (values := vals) end.
    rewrite Property_create_accepted by done. cbv zeta.
    set (row := <["property_id" := _]> _).
    assert (get row "year_built" = get (body req) "year_built") as Hy.
    { subst row.
      rewrite (get_created values now _ "year_built" (get (body req) "year_built") JNull);
        [by apply default_param_defined|done|evaluate|evaluate]. }
    assert (get row "furnished" = get (body req) "furnished") as Hf.
    { subst row.
      rewrite (get_created values now _ "furnished" (get (body req) "furnished")
                 (JBool false));
        [by apply default_param_defined|done|evaluate|evaluate]. }
    clearbody row. exists row. split; [done|]. split; [|done].
    cbn [snd with_tables Properties]. apply lookup_insert_eq.
Qed.

Lemma createProperty_needs_a_user_witness :
  PropertyController.createProperty People.users Sample.db 4000
    (mkReq ∅ (obj [("name", JStr "D"); ("user_id", JNum 99)]))
  = (mkReply 404 (Message "User not found"), Sample.db).
Proof.
  apply (createProperty_needs_a_user People.users Sample.db 4000); [reflexivity|].
  intros u.
  assert (as_key (get (obj [("name", JStr "D"); ("user_id", JNum 99)]) "user_id")
          = Some 99) as E by evaluate.
  cbn [body]. rewrite E. intros [= <-]. evaluate.
Defined.

(** ** What the error detail of a listing says *)

(** The three listings that catch and throw anew give the handler nothing
    to report: under status 400 the detail is the fixed message again.  The
    approved listing, which does not catch, reports the store's message. *)
Theorem listing_error_details db req :
  (code (PropertyController.getPropertiesDynamic db req) = 400 →
   sent (PropertyController.getPropertiesDynamic db req) =
     MessageError "Error fetching properties" "Error fetching properties")
  ∧ (code (PropertyController.getNonApprovedProperties db req) = 400 →
     sent (PropertyController.getNonApprovedProperties db req) =
       MessageError "Error fetching non-approved properties"
                    "Error fetching non-approved properties")
  ∧ (code (PropertyController.getPropertiesByUserId db req) = 400 →
     sent (PropertyController.getPropertiesByUserId db req) =
       MessageError "Error fetching properties by user ID"
                    "Error fetching properties by user ID")
  ∧ (∀ e, Property_outage db = Some e →
          PropertyController.getApprovedProperties db req =
            mkReply 400 (MessageError "Error fetching approved properties" (message e))).
Proof.
  split; [|split; [|split]].
  - unfold PropertyController.getPropertiesDynamic, getPropertiesDynamic. cbv zeta.
    match goal with |- context [try_catch ?b ?h] => destruct b end; simpl; done.
  - unfold PropertyController.getNonApprovedProperties, getNonApprovedProperties.
    match goal with |- context [try_catch ?b ?h] => destruct b end; simpl; done.
  - unfold PropertyController.getPropertiesByUserId, getPropertiesByUserId.
    cbv zeta.
    match goal with |- context [try_catch ?b ?h] => destruct b end; simpl; done.
  - intros e He.
    unfold PropertyController.getApprovedProperties, getApprovedProperties,
      Property_findAll, findAll. by rewrite He.
Qed.

Lemma listing_error_details_witness :
  sent (PropertyController.getPropertiesDynamic Sample.db_down (mkReq ∅ ∅)) =
    MessageError "Error fetching properties" "Error fetching properties".
Proof.
  destruct (listing_error_details Sample.db_down (mkReq ∅ ∅)) as [Hdynamic _].
  apply Hdynamic. evaluate.
Defined.
